(** * Track-hold VFO (VK3JST): gated frequency counter, calibration and
      mode logic of [Tracking-VFO-VK3JST.ino], embedded in Rocq.

    The sketch runs on an ATmega328P (Arduino Nano).  On that target
    [int] is 16 bits, [long] and [uint32_t] are 32 bits, [byte] is 8 bits
    and [double] is the IEEE-754 binary32 format.  Integers are modelled
    as [Z] with the wrap-around written out; [double] values as
    [spec_float] with the binary32 parameters. *)

From Stdlib Require Import ZArith List Bool Lia String QArith Qabs.
From Stdlib Require Import Floats.SpecFloat.
Import ListNotations.
Local Open Scope Z_scope.

(** ** Machine integers *)

Definition wrap8 (x : Z) : Z := x mod 256.
Definition wrap16 (x : Z) : Z := x mod 65536.
Definition wrap32 (x : Z) : Z := x mod 4294967296.
(** A 16-bit two's complement [int]. *)
Definition swrap16 (x : Z) : Z := (x + 32768) mod 65536 - 32768.

(** ** The gate hardware: Timer1, Timer2 and the variables they share
       with the main program *)

Module Gate.

Definition SEGS_PER_GATE : Z := 6.

Record gate : Type := mkGate {
  TCNT1 : Z;                 (* Timer1 counter register, 16 bits *)
  vGateSegCountdown : Z;     (* volatile int *)
  vCtr1OvrFlows : Z;         (* volatile byte *)
  vCtr1OvrFlowsCopy : Z;     (* volatile byte *)
  vCtr1Copy : Z              (* volatile uint16_t *)
}.

(** Values of the globals at program start, with Timer1 cleared. *)
Definition power_on : gate := mkGate 0 SEGS_PER_GATE 0 0 0.

(** [ISR (TIMER1_OVF_vect)] *)
Definition ISR_TIMER1_OVF (g : gate) : gate :=
  mkGate (TCNT1 g) (vGateSegCountdown g) (wrap8 (vCtr1OvrFlows g + 1))
         (vCtr1OvrFlowsCopy g) (vCtr1Copy g).

(** [ISR (TIMER2_OVF_vect)] *)
Definition ISR_TIMER2_OVF (g : gate) : gate :=
  let cd := swrap16 (vGateSegCountdown g - 1) in
  if cd =? 0
  then mkGate 0 cd 0 (vCtr1OvrFlows g) (TCNT1 g)
  else mkGate (TCNT1 g) cd (vCtr1OvrFlows g) (vCtr1OvrFlowsCopy g) (vCtr1Copy g).

(** What the hardware does on its own.  [Edge] is one rising edge on pin
    D5: Timer1 counts it and, when the 16-bit register wraps, raises the
    overflow interrupt.  [T2Ovf] is one overflow of Timer2 (every
    16.384 ms), one gate segment.  A handler runs to completion at the
    event that raises it. *)
Inductive hw_event : Type := Edge | T2Ovf.

Definition hw_step (e : hw_event) (g : gate) : gate :=
  match e with
  | Edge =>
      if TCNT1 g + 1 <? 65536
      then mkGate (TCNT1 g + 1) (vGateSegCountdown g) (vCtr1OvrFlows g)
                  (vCtr1OvrFlowsCopy g) (vCtr1Copy g)
      else ISR_TIMER1_OVF
             (mkGate 0 (vGateSegCountdown g) (vCtr1OvrFlows g)
                     (vCtr1OvrFlowsCopy g) (vCtr1Copy g))
  | T2Ovf => ISR_TIMER2_OVF g
  end.

Fixpoint run (evs : list hw_event) (g : gate) : gate :=
  match evs with
  | [] => g
  | e :: evs' => run evs' (hw_step e g)
  end.

(** Hardware activity while one call of [getGatedCount] executes.
    [during_wait]: the events while the [do {} while] loop polls; the loop
    is left at the first poll that finds the countdown not positive, and
    the events after that poll precede the next statement.
    [after_rearm]: the events between the re-arming store and the read of
    [vCtr1OvrFlowsCopy].  [between_reads]: the events between that read
    and the read of [vCtr1Copy]. *)
Record irq_windows : Type := mkWin {
  during_wait : list hw_event;
  after_rearm : list hw_event;
  between_reads : list hw_event
}.

(** [do { } while (vGateSegCountdown > 0);]  [None]: the events ran out
    with the loop still spinning. *)
Fixpoint spinWait (evs : list hw_event) (g : gate) : option gate :=
  if 0 <? vGateSegCountdown g
  then match evs with
       | [] => None
       | e :: evs' => spinWait evs' (hw_step e g)
       end
  else Some (run evs g).

Definition rearm (g : gate) : gate :=
  mkGate (TCNT1 g) SEGS_PER_GATE (vCtr1OvrFlows g)
         (vCtr1OvrFlowsCopy g) (vCtr1Copy g).

(** [uint32_t getGatedCount()] *)
Definition getGatedCount (w : irq_windows) (g : gate) : option (Z * gate) :=
  match spinWait (during_wait w) g with
  | None => None
  | Some g1 =>
      let g2 := rearm g1 in                          (* vGateSegCountdown = SEGS_PER_GATE *)
      let g3 := run (after_rearm w) g2 in
      let gCount := vCtr1OvrFlowsCopy g3 in          (* uint32_t gCount = vCtr1OvrFlowsCopy *)
      let g4 := run (between_reads w) g3 in
      let gCount := wrap32 (wrap32 (Z.shiftl gCount 16) + vCtr1Copy g4) in
      Some (gCount, g4)
  end.

(** *** Specification-side notions, computed from the event history *)

Definition segments (evs : list hw_event) : Z :=
  Z.of_nat (List.length (filter (fun e => match e with T2Ovf => true | Edge => false end) evs)).

Definition edges (evs : list hw_event) : Z :=
  Z.of_nat (List.length (filter (fun e => match e with Edge => true | T2Ovf => false end) evs)).

(** The raw counters seen by the Timer2 handler at the latest overflow
    among [evs] whose decrement brought the countdown to zero: the pair
    (overflow count, Timer1 register) just before that handler ran;
    [acc] when there is no such overflow. *)
Fixpoint captured (evs : list hw_event) (g : gate) (acc : option (Z * Z))
  : option (Z * Z) :=
  match evs with
  | [] => acc
  | e :: evs' =>
      captured evs' (hw_step e g)
        match e with
        | T2Ovf => if swrap16 (vGateSegCountdown g - 1) =? 0
                   then Some (vCtr1OvrFlows g, TCNT1 g) else acc
        | Edge => acc
        end
  end.

(** Ranges of the machine types. *)
Definition gate_ok (g : gate) : Prop :=
  0 <= TCNT1 g < 65536 /\
  -32768 <= vGateSegCountdown g < 32768 /\
  0 <= vCtr1OvrFlows g < 256 /\
  0 <= vCtr1OvrFlowsCopy g < 256 /\
  0 <= vCtr1Copy g < 65536.

(** The counters of Timer1 read as one number. *)
Definition raw (g : gate) : Z := vCtr1OvrFlows g * 65536 + TCNT1 g.

(** No overflow among [evs] completes a gate: the countdown stays
    positive, or it is already past zero and does not wrap. *)
Definition quiet (g : gate) (evs : list hw_event) : Prop :=
  0 < vGateSegCountdown g - segments evs \/
  (vGateSegCountdown g <= 0 /\ -32768 <= vGateSegCountdown g - segments evs).

End Gate.

(** ** The sketch: globals, peripherals and the main program *)

Module Vfo.
Import Gate.

(** *** [double]: IEEE-754 binary32 on this target *)

Definition prec : Z := 24.
Definition emax : Z := 128.
Definition double : Type := spec_float.

Definition fmul : double -> double -> double := SFmul prec emax.
Definition fdiv : double -> double -> double := SFdiv prec emax.
Definition flt : double -> double -> bool := SFltb.

(** Conversion of an integer to [double], to nearest. *)
Definition of_int (z : Z) : double := binary_normalize prec emax z 0 false.

(** The decimal literal [num / den], for [num] and [den] that binary32
    represents exactly: the nearest [double]. *)
Definition literal (num den : Z) : double := fdiv (of_int num) (of_int den).

(** Conversion of a [double] to [uint32_t]: the fraction is dropped.  C
    gives no meaning to the conversion of a value outside the range of
    the target type; here such a value wraps, and NaN and the infinities
    give 0. *)
Definition to_uint32 (x : double) : Z :=
  match x with
  | S754_finite s m e =>
      let t := if 0 <=? e then Zpos m * 2 ^ e else Zpos m / 2 ^ (- e) in
      wrap32 (if s then - t else t)
  | _ => 0
  end.

(** The exact rational value of a finite [double]. *)
Definition Q_of_double (x : double) : Q :=
  match x with
  | S754_finite s m e =>
      let v := if 0 <=? e then inject_Z (Zpos m * 2 ^ e)
               else Qmake (Zpos m) (Z.to_pos (2 ^ (- e))) in
      if s then Qopp v else v
  | _ => 0%Q
  end.

(** *** Constants of the sketch *)

Definition EE_ADDRESS : Z := 0.

Definition F_MIN : Z := 4950000.
Definition F_MAX : Z := 5550000.
Definition F_MID : Z := Z.quot (F_MAX + F_MIN) 2.

Definition GATE_SEG_DUR : double := literal 16384 1000000.      (* 0.016384 *)
Definition GATE_DUR : double := fmul GATE_SEG_DUR (of_int SEGS_PER_GATE).

(** Initial value of the global [scaleFactor]: [1.0 / GATE_DUR]. *)
Definition nominalScale : double := fdiv (of_int 1) GATE_DUR.

Definition NO_BUTS_THRESH : Z := 853.
Definition BTN_UP_THRESH : Z := 511.
Definition BTN_LOCK_THRESH : Z := 171.

Definition RATIO_LO : double := literal 95 100.                 (* 0.95 *)
Definition RATIO_HI : double := literal 105 100.                (* 1.05 *)

Definition TWO_POW_32 : double := of_int 4294967295.            (* 4294967295.0 *)
Definition NUM_ACCUM_LOOPS : Z := 10.

(** *** Peripherals *)

Inductive pin : Type :=
  | pinVfoDC | pinSigIn
  | pinDdsReset | pinDdsData | pinDdsLoad | pinDdsClock
  | pinLockLed | pinTrackingLed
  | pinBtns | LED_BUILTIN.

Definition pin_eqb (p q : pin) : bool :=
  match p, q with
  | pinVfoDC, pinVfoDC | pinSigIn, pinSigIn
  | pinDdsReset, pinDdsReset | pinDdsData, pinDdsData
  | pinDdsLoad, pinDdsLoad | pinDdsClock, pinDdsClock
  | pinLockLed, pinLockLed | pinTrackingLed, pinTrackingLed
  | pinBtns, pinBtns | LED_BUILTIN, LED_BUILTIN => true
  | _, _ => false
  end.

Definition is_dds_pin (p : pin) : bool :=
  match p with
  | pinDdsReset | pinDdsData | pinDdsLoad | pinDdsClock => true
  | _ => false
  end.

(** What [Serial.print] and [Serial.println] are given. *)
Inductive text : Type :=
  | Str (s : string)
  | Num (n : Z)
  | Dbl (x : double) (digits : Z).

Inductive serial_event : Type :=
  | Print (t : text)
  | Println (t : text).

(** The state of the program and of what it drives.  [ddsBus] is the
    chronological record of the levels written to the four pins of the
    synthesizer, [serial] of what was sent to the serial port, [levels]
    the present level of every output pin, [eeprom] the byte stored at
    each EEPROM address. *)
Record vfo : Type := mkVfo {
  hw : gate;
  scaleFactor : double;
  fDDS : Z;                          (* uint32_t *)
  trackMode : bool;
  lockMode : bool;
  oldLockBtnPressed : bool;          (* static local of CheckCtrlPins *)
  levels : pin -> bool;
  ddsBus : list (pin * bool);
  serial : list serial_event;
  eeprom : Z -> Z
}.

Definition set_hw (g : gate) (st : vfo) : vfo :=
  mkVfo g (scaleFactor st) (fDDS st) (trackMode st) (lockMode st)
        (oldLockBtnPressed st) (levels st) (ddsBus st) (serial st) (eeprom st).
Definition set_scaleFactor (x : double) (st : vfo) : vfo :=
  mkVfo (hw st) x (fDDS st) (trackMode st) (lockMode st)
        (oldLockBtnPressed st) (levels st) (ddsBus st) (serial st) (eeprom st).
Definition set_fDDS (f : Z) (st : vfo) : vfo :=
  mkVfo (hw st) (scaleFactor st) f (trackMode st) (lockMode st)
        (oldLockBtnPressed st) (levels st) (ddsBus st) (serial st) (eeprom st).
Definition set_trackMode (b : bool) (st : vfo) : vfo :=
  mkVfo (hw st) (scaleFactor st) (fDDS st) b (lockMode st)
        (oldLockBtnPressed st) (levels st) (ddsBus st) (serial st) (eeprom st).
Definition set_lockMode (b : bool) (st : vfo) : vfo :=
  mkVfo (hw st) (scaleFactor st) (fDDS st) (trackMode st) b
        (oldLockBtnPressed st) (levels st) (ddsBus st) (serial st) (eeprom st).
Definition set_oldLockBtnPressed (b : bool) (st : vfo) : vfo :=
  mkVfo (hw st) (scaleFactor st) (fDDS st) (trackMode st) (lockMode st)
        b (levels st) (ddsBus st) (serial st) (eeprom st).
Definition set_eeprom (ee : Z -> Z) (st : vfo) : vfo :=
  mkVfo (hw st) (scaleFactor st) (fDDS st) (trackMode st) (lockMode st)
        (oldLockBtnPressed st) (levels st) (ddsBus st) (serial st) ee.

Definition digitalWrite (p : pin) (v : bool) (st : vfo) : vfo :=
  mkVfo (hw st) (scaleFactor st) (fDDS st) (trackMode st) (lockMode st)
        (oldLockBtnPressed st)
        (fun q => if pin_eqb q p then v else levels st q)
        (if is_dds_pin p then ddsBus st ++ [(p, v)] else ddsBus st)
        (serial st) (eeprom st).

(** [digitalRead] of a pin the program drives. *)
Definition digitalRead (p : pin) (st : vfo) : bool := levels st p.

Definition Serial_print (t : text) (st : vfo) : vfo :=
  mkVfo (hw st) (scaleFactor st) (fDDS st) (trackMode st) (lockMode st)
        (oldLockBtnPressed st) (levels st) (ddsBus st)
        (serial st ++ [Print t]) (eeprom st).
Definition Serial_println (t : text) (st : vfo) : vfo :=
  mkVfo (hw st) (scaleFactor st) (fDDS st) (trackMode st) (lockMode st)
        (oldLockBtnPressed st) (levels st) (ddsBus st)
        (serial st ++ [Println t]) (eeprom st).

(** *** EEPROM: a [double] is four bytes, least significant first *)

Definition bits_of_double (x : double) : Z :=
  match x with
  | S754_zero s => if s then 2147483648 else 0
  | S754_infinity s => (if s then 2147483648 else 0) + 2139095040
  | S754_nan => 2143289344
  | S754_finite s m e =>
      (if s then 2147483648 else 0) +
      (if Zpos m <? 8388608 then Zpos m
       else (e + 150) * 8388608 + (Zpos m - 8388608))
  end.

Definition double_of_bits (b : Z) : double :=
  let s := Z.testbit b 31 in
  let ex := (b / 8388608) mod 256 in
  let m := b mod 8388608 in
  if ex =? 0 then
    if m =? 0 then S754_zero s else S754_finite s (Z.to_pos m) (-149)
  else if ex =? 255 then
    if m =? 0 then S754_infinity s else S754_nan
  else S754_finite s (Z.to_pos (m + 8388608)) (ex - 150).

Definition EEPROM_put (addr : Z) (x : double) (ee : Z -> Z) : Z -> Z :=
  fun a =>
    if (addr <=? a) && (a <? addr + 4)
    then (bits_of_double x / 256 ^ (a - addr)) mod 256
    else ee a.

Definition EEPROM_get (addr : Z) (ee : Z -> Z) : double :=
  double_of_bits (wrap8 (ee addr) + 256 * wrap8 (ee (addr + 1))
                  + 65536 * wrap8 (ee (addr + 2))
                  + 16777216 * wrap8 (ee (addr + 3))).

(** *** Synthesizer driver *)

Definition pulseHigh (p : pin) (st : vfo) : vfo :=
  digitalWrite p false (digitalWrite p true st).

(** The loop of [tfr_byte], [n] bits still to send. *)
Fixpoint tfr_bits (n : nat) (dataByte : Z) (st : vfo) : vfo :=
  match n with
  | O => st
  | S n' =>
      let st := digitalWrite pinDdsData (negb (Z.land dataByte 1 =? 0)) st in
      let st := pulseHigh pinDdsClock st in
      tfr_bits n' (Z.shiftr dataByte 1) st
  end.

Definition tfr_byte (dataByte : Z) (st : vfo) : vfo :=
  tfr_bits 8 (wrap8 dataByte) st.

(** The loop over the four bytes of the tuning word in [ddsSetFreq]. *)
Fixpoint tfr_word (n : nat) (tuningWord : Z) (st : vfo) : vfo :=
  match n with
  | O => st
  | S n' =>
      let st := tfr_byte (Z.land tuningWord 255) st in
      tfr_word n' (Z.shiftr tuningWord 8) st
  end.

(** [fDDS * TUNING_FACTOR], the macro expanded:
    [fDDS * 4294967295.0 / 125000000.0]. *)
Definition tuningWordOf (f : Z) : Z :=
  to_uint32 (fdiv (fmul (of_int f) TWO_POW_32) (of_int 125000000)).

(** [void ddsSetFreq(uint32_t fDDS)] *)
Definition ddsSetFreq (f : Z) (st : vfo) : vfo :=
  if (F_MIN <? f) && (f <? F_MAX) then
    let st := tfr_word 4 (tuningWordOf f) st in
    let st := tfr_byte 0 st in
    pulseHigh pinDdsLoad st
  else
    let st := Serial_print (Str "----- Warning, fDDS = ") st in
    let st := Serial_print (Num f) st in
    Serial_println (Str ", out of range for Yaesu VFO.  Not setting -----") st.

Definition setupDds (st : vfo) : vfo :=
  pulseHigh pinDdsLoad (pulseHigh pinDdsClock (pulseHigh pinDdsReset st)).

(** *** Mode logic *)

(** [void CheckCtrlPins()]; [vfoDC] is what [digitalRead(pinVfoDC)]
    returns and [valA] what [analogRead(pinBtns)] returns. *)
Definition CheckCtrlPins (vfoDC : bool) (valA : Z) (st : vfo) : vfo :=
  let st := set_trackMode (negb vfoDC) st in
  let st := digitalWrite pinTrackingLed (trackMode st) st in
  if NO_BUTS_THRESH <? valA then
    set_oldLockBtnPressed false st
  else if valA <? BTN_LOCK_THRESH then
    if negb (oldLockBtnPressed st) then
      let st := set_lockMode (negb (lockMode st)) st in
      let st := digitalWrite pinLockLed (lockMode st) st in
      set_oldLockBtnPressed true st
    else st
  else if negb (trackMode st) then
    let st :=
      if valA <? BTN_UP_THRESH
      then set_fDDS (wrap32 (fDDS st + 5)) st       (* Nudge down *)
      else set_fDDS (wrap32 (fDDS st - 5)) st       (* Nudge up *)
    in
    ddsSetFreq (fDDS st) st
  else st.

(** [gatedCount * scaleFactor], the frequency in Hz as a [double]. *)
Definition resolve (gatedCount : Z) (scale : double) : double :=
  fmul (of_int gatedCount) scale.

(** What the environment supplies during one pass of [loop]. *)
Record cycle : Type := mkCycle {
  irq : irq_windows;
  vfoDC : bool;
  valA : Z
}.

(** [void loop()]; [None] when the wait in [getGatedCount] is not over
    by the end of the events supplied. *)
Definition loop (cy : cycle) (st : vfo) : option vfo :=
  let st := digitalWrite LED_BUILTIN (negb (digitalRead LED_BUILTIN st)) st in
  match getGatedCount (irq cy) (hw st) with
  | None => None
  | Some (gatedCount, g) =>
      let st := set_hw g st in
      let st := CheckCtrlPins (vfoDC cy) (valA cy) st in
      if trackMode st && negb (lockMode st) then
        let st := set_fDDS (to_uint32 (resolve gatedCount (scaleFactor st))) st in
        Some (ddsSetFreq (fDDS st) st)
      else Some st
  end.

Fixpoint loops (cys : list cycle) (st : vfo) : option vfo :=
  match cys with
  | [] => Some st
  | cy :: cys' =>
      match loop cy st with
      | None => None
      | Some st' => loops cys' st'
      end
  end.

(** *** Calibration *)

(** The inner loop of [doCalib], [n] readings still to take; one entry of
    [sched] describes the hardware activity during one reading. *)
Fixpoint accumulate (n : nat) (sched : list irq_windows) (countAccum : Z)
  (st : vfo) : option (Z * list irq_windows * vfo) :=
  match n with
  | O => Some (countAccum, sched, st)
  | S n' =>
      match sched with
      | [] => None
      | w :: sched' =>
          let st := digitalWrite pinLockLed (negb (digitalRead pinLockLed st)) st in
          match getGatedCount w (hw st) with
          | None => None
          | Some (c, g) =>
              accumulate n' sched' (wrap32 (countAccum + c)) (set_hw g st)
          end
      end
  end.

(** The three values one pass of the outer loop prints. *)
Definition report (f : Z) (fAv calRatio : double) : list serial_event :=
  [ Print (Str "fDDS = "); Print (Num f);
    Print (Str ", fMeasured = "); Print (Dbl fAv 2);
    Print (Str ", calRatio = "); Println (Dbl calRatio 7) ].

Definition Serial_report (f : Z) (fAv calRatio : double) (st : vfo) : vfo :=
  mkVfo (hw st) (scaleFactor st) (fDDS st) (trackMode st) (lockMode st)
        (oldLockBtnPressed st) (levels st) (ddsBus st)
        (serial st ++ report f fAv calRatio) (eeprom st).

(** The outer loop of [doCalib], [n] passes still to make. *)
Fixpoint settle (n : nat) (sched : list irq_windows) (calRatio : double)
  (st : vfo) : option (double * list irq_windows * vfo) :=
  match n with
  | O => Some (calRatio, sched, st)
  | S n' =>
      match accumulate (Z.to_nat NUM_ACCUM_LOOPS) sched 0 st with
      | None => None
      | Some (countAccum, sched', st) =>
          let fAv := fdiv (fmul (of_int countAccum) (scaleFactor st))
                          (of_int NUM_ACCUM_LOOPS) in
          let calRatio := fdiv (of_int F_MID) fAv in
          settle n' sched' calRatio (Serial_report (fDDS st) fAv calRatio st)
      end
  end.

(** The test both [doCalib] and [getStoredCalib] make:
    [(calRatio > 0.95) && (calRatio < 1.05)]. *)
Definition ratio_ok (calRatio : double) : bool :=
  flt RATIO_LO calRatio && flt calRatio RATIO_HI.

(** The last statement of [doCalib]. *)
Definition storeCalib (calRatio : double) (st : vfo) : vfo :=
  if ratio_ok calRatio then
    let st := set_eeprom (EEPROM_put EE_ADDRESS calRatio (eeprom st)) st in
    let st := set_lockMode true st in
    let st := digitalWrite pinLockLed (lockMode st) st in
    let st := Serial_println (Str "Writing calRatio to EEPROM...") st in
    Serial_println (Str "Set calib jumper back to normal position") st
  else
    Serial_print (Str "calRatio bad value.  Not writing to EEPROM.") st.

(** [void doCalib()]; returns the part of [sched] it did not use. *)
Definition doCalib (sched : list irq_windows) (st : vfo)
  : option (list irq_windows * vfo) :=
  let st := Serial_println (Str "Calibrating...") st in
  let st := ddsSetFreq F_MID st in
  match settle 8 sched (of_int 1) st with
  | None => None
  | Some (calRatio, rest, st) => Some (rest, storeCalib calRatio st)
  end.

(** [void getStoredCalib()] *)
Definition getStoredCalib (st : vfo) : vfo :=
  let calRatio := EEPROM_get EE_ADDRESS (eeprom st) in
  if ratio_ok calRatio then
    let st := set_scaleFactor (fdiv calRatio GATE_DUR) st in
    let st := Serial_print (Str "Read calRatio from EEPROM: ") st in
    let st := Serial_println (Dbl calRatio 7) st in
    Serial_println (Str "======= Calibrated =======") st
  else
    Serial_print (Str "Unable to read calRatio from EEPROM.  Not calibrated yet.") st.

(** *** Start-up *)

(** The globals as initialised, all outputs low, nothing sent yet; the
    EEPROM keeps what it held. *)
Definition power_on (ee : Z -> Z) : vfo :=
  mkVfo Gate.power_on nominalScale F_MID false false false
        (fun _ => false) [] [] ee.

Definition setupPins (st : vfo) : vfo :=
  digitalWrite pinLockLed (lockMode st)
    (digitalWrite pinTrackingLed (trackMode st) st).

(** [void setup()]; [btns] is what [analogRead(pinBtns)] returns. *)
Definition setup (btns : Z) (sched : list irq_windows) (st : vfo)
  : option (list irq_windows * vfo) :=
  let st := setupPins st in
  let st := setupDds st in
  let st := ddsSetFreq F_MID st in
  let st := Serial_println (Str "To calibrate, set calib jumper, then press arduino reset btn while holding either nudge btn pressed") st in
  if btns <? NO_BUTS_THRESH then
    match doCalib sched st with
    | None => None
    | Some (rest, st) => Some (rest, getStoredCalib st)
    end
  else Some (sched, getStoredCalib st).

(** *** Specification-side notions *)

(** The values successive calls of [getGatedCount] return under the
    hardware activity [sched]. *)
Fixpoint readings (sched : list irq_windows) (g : gate) : option (list Z * gate) :=
  match sched with
  | [] => Some ([], g)
  | w :: sched' =>
      match getGatedCount w g with
      | None => None
      | Some (c, g') =>
          match readings sched' g' with
          | None => None
          | Some (cs, g'') => Some (c :: cs, g'')
          end
      end
  end.

Definition sum (cs : list Z) : Z := fold_right Z.add 0 cs.

(** The measured frequency and the ratio that one pass over the readings
    [cs] yields under the scale factor [scale]. *)
Definition measured (cs : list Z) (scale : double) : double :=
  fdiv (fmul (of_int (sum cs)) scale) (of_int 10).
Definition ratioOf (cs : list Z) (scale : double) : double :=
  fdiv (of_int F_MID) (measured cs scale).

(** What [n] passes print, each over its own ten readings. *)
Fixpoint reports (n : nat) (cs : list Z) (f : Z) (scale : double)
  : list serial_event :=
  match n with
  | O => []
  | S n' =>
      report f (measured (firstn 10 cs) scale) (ratioOf (firstn 10 cs) scale)
      ++ reports n' (skipn 10 cs) f scale
  end.

(** Everything in the state but the pins and the serial port. *)
Definition core (st : vfo)
  : gate * double * Z * bool * bool * bool * (Z -> Z) :=
  (hw st, scaleFactor st, fDDS st, trackMode st, lockMode st,
   oldLockBtnPressed st, eeprom st).

(** The writes that send one bit, [n] bits of a byte least significant
    first, and the 40-bit frame of a tuning word closed by the strobe on
    the load pin. *)
Definition bitWrites (b : bool) : list (pin * bool) :=
  [(pinDdsData, b); (pinDdsClock, true); (pinDdsClock, false)].

Fixpoint bitsWrites (n : nat) (dataByte : Z) : list (pin * bool) :=
  match n with
  | O => []
  | S n' => bitWrites (Z.odd dataByte) ++ bitsWrites n' (dataByte / 2)
  end.

Definition byteWrites (dataByte : Z) : list (pin * bool) :=
  bitsWrites 8 (dataByte mod 256).

Definition frame (tuningWord : Z) : list (pin * bool) :=
  byteWrites tuningWord
  ++ byteWrites (tuningWord / 256)
  ++ byteWrites (tuningWord / 65536)
  ++ byteWrites (tuningWord / 16777216)
  ++ byteWrites 0
  ++ [(pinDdsLoad, true); (pinDdsLoad, false)].

(** The diagnostic of [ddsSetFreq]. *)
Definition warning (f : Z) : list serial_event :=
  [ Print (Str "----- Warning, fDDS = "); Print (Num f);
    Println (Str ", out of range for Yaesu VFO.  Not setting -----") ].

(** [n] passes of [CheckCtrlPins] with the same readings of the pins. *)
Fixpoint presses (n : nat) (vfoDC : bool) (valA : Z) (st : vfo) : vfo :=
  match n with
  | O => st
  | S n' => presses n' vfoDC valA (CheckCtrlPins vfoDC valA st)
  end.

(** An erased EEPROM. *)
Definition blank : Z -> Z := fun _ => 255.

(** The test [ddsSetFreq] makes before it sends anything. *)
Definition inBand (f : Z) : bool := (F_MIN <? f) && (f <? F_MAX).

(** The button [analogRead(pinBtns)] decodes to. *)
Inductive button : Type := NoButton | LockButton | DownButton | UpButton.

Definition decode (valA : Z) : button :=
  if NO_BUTS_THRESH <? valA then NoButton
  else if valA <? BTN_LOCK_THRESH then LockButton
  else if valA <? BTN_UP_THRESH then DownButton
  else UpButton.

(** The states after each pass of [loop] over the cycles [cys]. *)
Fixpoint states (cys : list cycle) (st : vfo) : list vfo :=
  match cys with
  | [] => []
  | cy :: cys' =>
      match loop cy st with
      | None => []
      | Some st' => st' :: states cys' st'
      end
  end.

(** The whole sketch: [setup] once, then [loop] once per cycle.  [ee] is
    what the EEPROM holds at reset, [btns] the reading of the buttons in
    [setup], [sched] the hardware activity during a calibration. *)
Definition sketch (ee : Z -> Z) (btns : Z) (sched : list irq_windows)
  (cys : list cycle) : option vfo :=
  match setup btns sched (power_on ee) with
  | None => None
  | Some (_, st) => loops cys st
  end.

(** One gate of six segments during which [n] edges arrive, all before
    the last overflow, and nothing happens while the count is read. *)
Definition gateOf (n : nat) : irq_windows :=
  mkWin ([T2Ovf; T2Ovf; T2Ovf; T2Ovf; T2Ovf] ++ repeat Edge n ++ [T2Ovf]) [] [].

(** What the last statement of [doCalib] prints for the ratio [r]. *)
Definition verdict (r : double) : list serial_event :=
  if ratio_ok r then
    [ Println (Str "Writing calRatio to EEPROM...");
      Println (Str "Set calib jumper back to normal position") ]
  else [ Print (Str "calRatio bad value.  Not writing to EEPROM.") ].

(** The ratio left by [n] passes over the readings [cs], [r0] before the
    first pass. *)
Fixpoint lastRatio (n : nat) (cs : list Z) (scale r0 : double) : double :=
  match n with
  | O => r0
  | S n' => lastRatio n' (skipn 10 cs) scale (ratioOf (firstn 10 cs) scale)
  end.

(** The variables the measuring loops of [doCalib] leave alone. *)
Definition kept (st st' : vfo) : Prop :=
  scaleFactor st' = scaleFactor st /\ fDDS st' = fDDS st /\
  trackMode st' = trackMode st /\ lockMode st' = lockMode st /\
  oldLockBtnPressed st' = oldLockBtnPressed st /\ eeprom st' = eeprom st /\
  ddsBus st' = ddsBus st /\
  (forall p, p <> pinLockLed -> levels st' p = levels st p).

(** What a serial receiver clocked by [pinDdsClock] reads from a run of
    writes: the level of [pinDdsData] at each rising edge of the clock.
    [d] and [c] are the levels of the data and clock pins before the
    run. *)
Fixpoint sampled (d c : bool) (ws : list (pin * bool)) : list bool :=
  match ws with
  | [] => []
  | (p, v) :: ws' =>
      match p with
      | pinDdsData => sampled v c ws'
      | pinDdsClock =>
          if negb c && v then d :: sampled d v ws' else sampled d v ws'
      | _ => sampled d c ws'
      end
  end.

(** The number a run of bits spells, least significant first. *)
Fixpoint value (bits : list bool) : Z :=
  match bits with
  | [] => 0
  | b :: bs => Z.b2z b + 2 * value bs
  end.

(** The first [n] bits of [x], least significant first. *)
Fixpoint bitlist (n : nat) (x : Z) : list bool :=
  match n with
  | O => []
  | S n' => Z.odd x :: bitlist n' (x / 2)
  end.


(** The measured frequency as the specification words it: the average of
    the readings, then the average times the scale factor. *)
Definition average (cs : list Z) : double :=
  fdiv (of_int (sum cs)) (of_int 10).
Definition averageTimesScale (cs : list Z) (scale : double) : double :=
  fmul (average cs) scale.

(** The bytes at the four addresses from [addr] on, lowest address first. *)
Definition cells (addr : Z) (ee : Z -> Z) : list Z :=
  [ee addr; ee (addr + 1); ee (addr + 2); ee (addr + 3)].

(** The four bytes of the binary32 pattern of [x], least significant
    first. *)
Definition bytesOf (x : double) : list Z :=
  [bits_of_double x mod 256; (bits_of_double x / 256) mod 256;
   (bits_of_double x / 65536) mod 256; (bits_of_double x / 16777216) mod 256].

End Vfo.

(** * Facts about the gate *)

Import Gate.

Section GateFacts.

Lemma swrap16_id x : -32768 <= x < 32768 -> swrap16 x = x.
Proof. intros H. unfold swrap16. rewrite Z.mod_small; lia. Qed.

Lemma swrap16_range x : -32768 <= swrap16 x < 32768.
Proof. unfold swrap16. pose proof (Z.mod_pos_bound (x + 32768) 65536). lia. Qed.

Lemma swrap16_pred_zero x :
  -32768 <= x < 32768 -> (swrap16 (x - 1) =? 0) = (x =? 1).
Proof.
  intros H. destruct (Z.eq_dec x (-32768)) as [->|Hne]; [reflexivity|].
  rewrite swrap16_id by lia.
  destruct (x =? 1) eqn:E; [apply Z.eqb_eq in E; subst; reflexivity|].
  apply Z.eqb_neq in E. apply Z.eqb_neq. lia.
Qed.

Lemma segments_cons_T2 evs : segments (T2Ovf :: evs) = segments evs + 1.
Proof. unfold segments. cbn [filter List.length]. lia. Qed.
Lemma segments_cons_Edge evs : segments (Edge :: evs) = segments evs.
Proof. reflexivity. Qed.
Lemma edges_cons_T2 evs : edges (T2Ovf :: evs) = edges evs.
Proof. reflexivity. Qed.
Lemma edges_cons_Edge evs : edges (Edge :: evs) = edges evs + 1.
Proof. unfold edges. cbn [filter List.length]. lia. Qed.
Lemma segments_nonneg evs : 0 <= segments evs.
Proof. unfold segments. lia. Qed.
Lemma edges_nonneg evs : 0 <= edges evs.
Proof. unfold edges. lia. Qed.
Lemma segments_app a b : segments (a ++ b) = segments a + segments b.
Proof. unfold segments. rewrite filter_app, length_app. lia. Qed.
Lemma edges_app a b : edges (a ++ b) = edges a + edges b.
Proof. unfold edges. rewrite filter_app, length_app. lia. Qed.

Lemma run_app a b g : run (a ++ b) g = run b (run a g).
Proof. revert g. induction a as [|e a IH]; intros g; cbn; auto. Qed.

Lemma hw_step_ok e g : gate_ok g -> gate_ok (hw_step e g).
Proof.
  unfold gate_ok. intros (H1 & H2 & H3 & H4 & H5).
  destruct e; cbn [hw_step].
  - destruct (TCNT1 g + 1 <? 65536) eqn:E; cbn.
    + apply Z.ltb_lt in E. lia.
    + unfold wrap8. pose proof (Z.mod_pos_bound (vCtr1OvrFlows g + 1) 256). lia.
  - unfold ISR_TIMER2_OVF.
    pose proof (swrap16_range (vGateSegCountdown g - 1)).
    destruct (swrap16 (vGateSegCountdown g - 1) =? 0) eqn:E; cbn; lia.
Qed.

Lemma run_ok evs g : gate_ok g -> gate_ok (run evs g).
Proof. revert g. induction evs as [|e evs IH]; intros g H; cbn; auto using hw_step_ok. Qed.

Lemma rearm_ok g : gate_ok g -> gate_ok (rearm g).
Proof. unfold gate_ok, rearm, SEGS_PER_GATE. cbn. lia. Qed.

Lemma power_on_ok : gate_ok power_on.
Proof. unfold gate_ok, power_on, SEGS_PER_GATE. cbn. lia. Qed.

(** The copies always hold what the handler captured last. *)
Lemma captured_copies evs g :
  captured evs g (Some (vCtr1OvrFlowsCopy g, vCtr1Copy g))
  = Some (vCtr1OvrFlowsCopy (run evs g), vCtr1Copy (run evs g)).
Proof.
  revert g. induction evs as [|e evs IH]; intros g; cbn [captured run]; [reflexivity|].
  destruct e; cbn [hw_step].
  - rewrite <- IH. destruct (TCNT1 g + 1 <? 65536); reflexivity.
  - rewrite <- IH. unfold ISR_TIMER2_OVF.
    destruct (swrap16 (vGateSegCountdown g - 1) =? 0); reflexivity.
Qed.

Lemma captured_acc evs g acc :
  captured evs g acc =
  match captured evs g None with Some x => Some x | None => acc end.
Proof.
  revert g acc. induction evs as [|e evs IH]; intros g acc; cbn [captured]; [reflexivity|].
  destruct e.
  - apply IH.
  - destruct (swrap16 (vGateSegCountdown g - 1) =? 0).
    + rewrite (IH _ (Some _)).
      destruct (captured evs (hw_step T2Ovf g) None); reflexivity.
    + apply IH.
Qed.


Lemma spinWait_run evs g g1 : spinWait evs g = Some g1 -> g1 = run evs g.
Proof.
  revert g. induction evs as [|e evs IH]; intros g; cbn [spinWait run].
  - destruct (0 <? vGateSegCountdown g); congruence.
  - destruct (0 <? vGateSegCountdown g); [apply IH|cbn; congruence].
Qed.

(** One step of the countdown while it is positive. *)
Lemma countdown_T2 g :
  gate_ok g -> 0 < vGateSegCountdown g ->
  vGateSegCountdown (hw_step T2Ovf g) = vGateSegCountdown g - 1.
Proof.
  intros (_ & H & _) Hpos. cbn. unfold ISR_TIMER2_OVF.
  rewrite swrap16_id by lia.
  destruct (vGateSegCountdown g - 1 =? 0); reflexivity.
Qed.

Lemma countdown_Edge g :
  vGateSegCountdown (hw_step Edge g) = vGateSegCountdown g.
Proof. cbn. destruct (TCNT1 g + 1 <? 65536); reflexivity. Qed.

(** The wait ends once the overflows still due have come. *)
Lemma spinWait_total evs g :
  gate_ok g -> vGateSegCountdown g <= segments evs ->
  spinWait evs g = Some (run evs g).
Proof.
  revert g. induction evs as [|e evs IH]; intros g Hok Hle; cbn [spinWait run].
  - destruct (0 <? vGateSegCountdown g) eqn:E; [|reflexivity].
    apply Z.ltb_lt in E. cbn in Hle. lia.
  - destruct (0 <? vGateSegCountdown g) eqn:E; [|reflexivity].
    apply Z.ltb_lt in E. apply IH; [auto using hw_step_ok|].
    destruct e.
    + rewrite countdown_Edge. rewrite segments_cons_Edge in Hle. exact Hle.
    + rewrite countdown_T2 by assumption. rewrite segments_cons_T2 in Hle. lia.
Qed.

(** ... and not before. *)
Lemma spinWait_early evs g :
  gate_ok g -> segments evs < vGateSegCountdown g -> spinWait evs g = None.
Proof.
  revert g. induction evs as [|e evs IH]; intros g Hok Hlt; cbn [spinWait].
  - pose proof (segments_nonneg []).
    destruct (0 <? vGateSegCountdown g) eqn:E; [reflexivity|].
    apply Z.ltb_ge in E. lia.
  - pose proof (segments_nonneg (e :: evs)).
    destruct (0 <? vGateSegCountdown g) eqn:E; [|apply Z.ltb_ge in E; lia].
    apply Z.ltb_lt in E. apply IH; [auto using hw_step_ok|].
    destruct e.
    + rewrite countdown_Edge. rewrite segments_cons_Edge in Hlt. exact Hlt.
    + rewrite countdown_T2 by assumption. rewrite segments_cons_T2 in Hlt. lia.
Qed.


Lemma run_quiet evs g acc :
  gate_ok g -> quiet g evs ->
  vGateSegCountdown (run evs g) = vGateSegCountdown g - segments evs /\
  raw (run evs g) = (raw g + edges evs) mod 16777216 /\
  vCtr1OvrFlowsCopy (run evs g) = vCtr1OvrFlowsCopy g /\
  vCtr1Copy (run evs g) = vCtr1Copy g /\
  captured evs g acc = acc.
Proof.
  revert g. induction evs as [|e evs IH]; intros g Hok Hq.
  - cbn. destruct Hok as (H1 & _ & H3 & _).
    repeat split; try lia. unfold raw. rewrite Z.add_0_r, Z.mod_small; lia.
  - cbn [run captured].
    assert (Hok' := hw_step_ok e g Hok).
    pose proof (segments_nonneg evs) as Hs.
    destruct e.
    + rewrite segments_cons_Edge in *. rewrite edges_cons_Edge.
      assert (Hq' : quiet (hw_step Edge g) evs).
      { unfold quiet in *. rewrite countdown_Edge. exact Hq. }
      destruct (IH _ Hok' Hq') as (A & B & C & D & E).
      rewrite A, B, C, D, E, countdown_Edge.
      repeat split; try reflexivity.
      * destruct Hok as (H1 & _ & H3 & _). unfold raw. cbn [hw_step].
        destruct (TCNT1 g + 1 <? 65536) eqn:El; cbn.
        -- f_equal. lia.
        -- apply Z.ltb_ge in El. unfold wrap8.
           pose proof (Z.div_mod (vCtr1OvrFlows g + 1) 256 ltac:(lia)) as Hdm.
           set (q := (vCtr1OvrFlows g + 1) / 256) in *.
           set (r := (vCtr1OvrFlows g + 1) mod 256) in *.
           replace (vCtr1OvrFlows g * 65536 + TCNT1 g + (edges evs + 1))
             with (r * 65536 + 0 + edges evs + q * 16777216) by lia.
           rewrite Z.mod_add by lia. reflexivity.
      * cbn [hw_step]. destruct (TCNT1 g + 1 <? 65536); reflexivity.
      * cbn [hw_step]. destruct (TCNT1 g + 1 <? 65536); reflexivity.
    + unfold quiet in Hq. rewrite segments_cons_T2 in *. rewrite edges_cons_T2.
      assert (Hcd : vGateSegCountdown (hw_step T2Ovf g) = vGateSegCountdown g - 1
                    /\ (swrap16 (vGateSegCountdown g - 1) =? 0) = false).
      { destruct Hok as (_ & H2 & _). cbn. unfold ISR_TIMER2_OVF.
        rewrite swrap16_id by lia.
        destruct (vGateSegCountdown g - 1 =? 0) eqn:E.
        - apply Z.eqb_eq in E. lia.
        - split; reflexivity. }
      destruct Hcd as (Hcd & Hz).
      assert (Hq' : quiet (hw_step T2Ovf g) evs).
      { unfold quiet. rewrite Hcd. lia. }
      destruct (IH _ Hok' Hq') as (A & B & C & D & E).
      rewrite A, B, C, D, Hz, E, Hcd.
      cbn [hw_step]. unfold ISR_TIMER2_OVF. rewrite Hz. unfold raw. cbn.
      repeat split; try reflexivity. lia.
Qed.





Lemma lor_combine a c :
  0 <= a < 256 -> 0 <= c < 65536 ->
  wrap32 (wrap32 (Z.shiftl a 16) + c) = Z.lor (Z.shiftl a 16) c /\
  Z.lor (Z.shiftl a 16) c = a * 65536 + c.
Proof.
  intros Ha Hc.
  assert (Hl : Z.land (Z.shiftl a 16) c = 0).
  { apply Z.bits_inj'. intros n Hn. rewrite Z.land_spec, Z.bits_0.
    destruct (Z.lt_ge_cases n 16) as [Hlt|Hge].
    - rewrite Z.shiftl_spec_low by assumption. reflexivity.
    - rewrite <- (Z.mod_small c (2 ^ 16)) by (change (2 ^ 16) with 65536; lia).
      rewrite Z.mod_pow2_bits_high by lia. apply andb_false_r. }
  pose proof (Z.add_lor_land (Z.shiftl a 16) c) as Hadd.
  rewrite Hl, Z.add_0_r in Hadd.
  rewrite Z.shiftl_mul_pow2 in * by lia. change (2 ^ 16) with 65536 in *.
  split; [|exact Hadd].
  unfold wrap32. rewrite (Z.mod_small (a * 65536)) by lia.
  rewrite Z.mod_small by lia. symmetry. exact Hadd.
Qed.

(** The state a call returns in, and its value, once the wait is over. *)
Lemma getGatedCount_after_wait w g :
  gate_ok g ->
  spinWait (during_wait w) g = Some (run (during_wait w) g) ->
  segments (after_rearm w ++ between_reads w) < SEGS_PER_GATE ->
  let g1 := run (during_wait w) g in
  exists g',
    getGatedCount w g =
      Some (Z.lor (Z.shiftl (vCtr1OvrFlowsCopy g1) 16) (vCtr1Copy g1), g') /\
    g' = run (after_rearm w ++ between_reads w) (rearm g1) /\
    gate_ok g' /\
    vGateSegCountdown g' =
      SEGS_PER_GATE - segments (after_rearm w ++ between_reads w) /\
    raw g' = (raw g1 + edges (after_rearm w ++ between_reads w)) mod 16777216.
Proof.
  intros Hok Hw Hseg g1.
  assert (Hok1 : gate_ok g1) by (apply run_ok; exact Hok).
  assert (Hokr := rearm_ok g1 Hok1).
  rewrite segments_app in Hseg. unfold SEGS_PER_GATE in *.
  pose proof (segments_nonneg (after_rearm w)).
  pose proof (segments_nonneg (between_reads w)).
  assert (Q2 : quiet (rearm g1) (after_rearm w)).
  { left. cbn [rearm vGateSegCountdown]. unfold SEGS_PER_GATE. lia. }
  destruct (run_quiet _ _ None Hokr Q2) as (A2 & B2 & C2 & D2 & _).
  assert (Hok3 := run_ok (after_rearm w) _ Hokr).
  assert (Q3 : quiet (run (after_rearm w) (rearm g1)) (between_reads w)).
  { left. rewrite A2. cbn [rearm vGateSegCountdown]. unfold SEGS_PER_GATE. lia. }
  destruct (run_quiet _ _ None Hok3 Q3) as (A3 & B3 & C3 & D3 & _).
  exists (run (between_reads w) (run (after_rearm w) (rearm g1))).
  unfold getGatedCount. rewrite Hw. fold g1. cbv zeta.
  rewrite D3, D2, C2. cbn [rearm vCtr1OvrFlowsCopy vCtr1Copy].
  destruct Hok1 as (_ & _ & _ & H4 & H5).
  destruct (lor_combine _ _ H4 H5) as (-> & _).
  split; [reflexivity|].
  rewrite run_app, segments_app, edges_app.
  split; [reflexivity|]. split; [apply run_ok; exact Hok3|].
  split.
  - rewrite A3, A2. cbn [rearm vGateSegCountdown]. unfold SEGS_PER_GATE. lia.
  - rewrite B3, B2. rewrite Zplus_mod_idemp_l. f_equal.
    unfold raw. cbn. lia.
Qed.

(** Once the overflows still due have come, the wait is over and the
    copies hold what the handler captured at the latest overflow that
    completed a gate. *)
Lemma wait_captures g c w :
  gate_ok g ->
  0 < vGateSegCountdown g ->
  vGateSegCountdown (run c g) <= segments (during_wait w) ->
  spinWait (during_wait w) (run c g) = Some (run (during_wait w) (run c g)) /\
  exists ovf cnt,
    captured (c ++ during_wait w) g None = Some (ovf, cnt) /\
    vCtr1OvrFlowsCopy (run (during_wait w) (run c g)) = ovf /\
    vCtr1Copy (run (during_wait w) (run c g)) = cnt.
Proof.
  intros Hok Hpos Hdue.
  assert (Hokc := run_ok c g Hok).
  split; [exact (spinWait_total (during_wait w) (run c g) Hokc Hdue)|].
  assert (Hsome : exists x, captured (c ++ during_wait w) g None = Some x).
  { assert (Hle : vGateSegCountdown g <= segments (c ++ during_wait w)).
    { rewrite segments_app. pose proof (segments_nonneg (during_wait w)).
      destruct (Z.lt_ge_cases (segments c) (vGateSegCountdown g)) as [Hlt|Hge]; [|lia].
      assert (Qc : quiet g c) by (left; lia).
      destruct (run_quiet c g None Hok Qc) as (A & _). lia. }
    clear - Hok Hpos Hle. revert g Hok Hpos Hle.
    induction (c ++ during_wait w) as [|e l IH]; intros g Hok Hpos Hle.
    - cbn in Hle. lia.
    - cbn [captured]. destruct e.
      + apply IH; [apply hw_step_ok; exact Hok|rewrite countdown_Edge; exact Hpos|].
        rewrite countdown_Edge. exact Hle.
      + rewrite segments_cons_T2 in Hle.
        destruct Hok as (H1 & H2 & H3) eqn:Ek.
        rewrite swrap16_pred_zero by exact H2.
        destruct (vGateSegCountdown g =? 1) eqn:E1.
        * rewrite captured_acc.
          destruct (captured l (hw_step T2Ovf g) None); eauto.
        * apply Z.eqb_neq in E1.
          apply IH; [apply hw_step_ok; exact Hok| |];
            rewrite countdown_T2 by assumption; lia. }
  destruct Hsome as ((ovf & cnt) & Hcap).
  exists ovf, cnt. split; [exact Hcap|].
  pose proof (captured_copies (c ++ during_wait w) g) as Hcc.
  rewrite captured_acc, Hcap, run_app in Hcc.
  injection Hcc as <- <-. split; reflexivity.
Qed.

(** C1: for a call entered with the gate armed at the return of the
    previous call (or at start-up), after the hardware events [c] of the
    caller's own work, with enough Timer2 overflows to end the wait and
    fewer than SEGS_PER_GATE of them while the count is read (the valid
    gate-segment sequences): the call returns, and its value is
    [(ovf << 16) | cnt] for the pair the Timer2 handler captured at the
    latest overflow, among the events since that previous return, that
    brought the countdown to zero; the call returns with the gate armed
    again, so the next call waits for a capture of its own. *)
Theorem getGatedCount_returns_capture (g : gate) (c : list hw_event) (w : irq_windows) :
  gate_ok g ->
  0 < vGateSegCountdown g ->
  vGateSegCountdown (run c g) <= segments (during_wait w) ->
  segments (after_rearm w ++ between_reads w) < SEGS_PER_GATE ->
  exists v g' ovf cnt,
    getGatedCount w (run c g) = Some (v, g') /\
    captured (c ++ during_wait w) g None = Some (ovf, cnt) /\
    v = Z.lor (Z.shiftl ovf 16) cnt /\
    gate_ok g' /\ 0 < vGateSegCountdown g'.
Proof.
  intros Hok Hpos Hdue Hwin.
  destruct (wait_captures g c w Hok Hpos Hdue) as (Hw & ovf & cnt & Hcap & Ho & Hc).
  destruct (getGatedCount_after_wait w (run c g) (run_ok c g Hok) Hw Hwin)
    as (g' & Hret & _ & Hok' & Hcd & _).
  cbv zeta in Hret. rewrite Ho, Hc in Hret.
  exists (Z.lor (Z.shiftl ovf 16) cnt), g', ovf, cnt.
  split; [exact Hret|]. split; [exact Hcap|].
  split; [reflexivity|]. split; [exact Hok'|].
  rewrite Hcd. lia.
Qed.


End GateFacts.

(** * Facts about the synthesizer driver *)

Import Vfo.

Section DriverFacts.

Lemma tfr_bits_core n b st : core (tfr_bits n b st) = core st.
Proof. revert b st. induction n as [|n IH]; intros b st; cbn [tfr_bits]; [reflexivity|]. rewrite IH. reflexivity. Qed.

Lemma tfr_bits_serial n b st : serial (tfr_bits n b st) = serial st.
Proof. revert b st. induction n as [|n IH]; intros b st; cbn [tfr_bits]; [reflexivity|]. rewrite IH. reflexivity. Qed.

Lemma tfr_bits_levels n b st p :
  is_dds_pin p = false -> levels (tfr_bits n b st) p = levels st p.
Proof.
  intros Hp. revert b st. induction n as [|n IH]; intros b st; cbn [tfr_bits]; [reflexivity|].
  rewrite IH. destruct p; try discriminate Hp; reflexivity.
Qed.

Lemma land_1_odd b : negb (Z.land b 1 =? 0) = Z.odd b.
Proof.
  change 1 with (Z.ones 1). rewrite Z.land_ones by lia.
  change (2 ^ 1) with 2. rewrite Zmod_odd. destruct (Z.odd b); reflexivity.
Qed.

Lemma tfr_bits_bus n b st :
  ddsBus (tfr_bits n b st) = ddsBus st ++ bitsWrites n b.
Proof.
  revert b st. induction n as [|n IH]; intros b st; cbn [tfr_bits bitsWrites].
  - rewrite app_nil_r. reflexivity.
  - rewrite IH. cbn [pulseHigh digitalWrite ddsBus is_dds_pin].
    rewrite land_1_odd, Z.shiftr_div_pow2 by lia. change (2 ^ 1) with 2.
    unfold bitWrites. rewrite <- !app_assoc. reflexivity.
Qed.

Lemma tfr_byte_bus b st : ddsBus (tfr_byte b st) = ddsBus st ++ byteWrites b.
Proof. unfold tfr_byte, byteWrites, wrap8. apply tfr_bits_bus. Qed.

Lemma land_255 b : Z.land b 255 = b mod 256.
Proof. change 255 with (Z.ones 8). rewrite Z.land_ones by lia. reflexivity. Qed.

Lemma byteWrites_mod b : byteWrites (b mod 256) = byteWrites b.
Proof. unfold byteWrites. rewrite Z.mod_mod by lia. reflexivity. Qed.

Lemma ddsSetFreq_in f st :
  F_MIN < f < F_MAX ->
  core (ddsSetFreq f st) = core st /\
  serial (ddsSetFreq f st) = serial st /\
  ddsBus (ddsSetFreq f st) = ddsBus st ++ frame (tuningWordOf f).
Proof.
  intros (Hlo & Hhi). unfold ddsSetFreq.
  apply Z.ltb_lt in Hlo, Hhi. rewrite Hlo, Hhi. cbn [andb].
  cbn [tfr_word]. unfold tfr_byte.
  split; [|split].
  - cbn [pulseHigh digitalWrite core hw scaleFactor fDDS trackMode lockMode oldLockBtnPressed eeprom].
    repeat (change (?a, ?b) with (a, b)).
    pose proof (fun n b s => tfr_bits_core n b s) as H.
    unfold core in H.
    repeat match goal with
    | |- context [hw (tfr_bits ?n ?b ?s)] =>
        let E := fresh in pose proof (H n b s) as E; injection E as -> -> -> -> -> -> ->
    end.
    reflexivity.
  - cbn [pulseHigh digitalWrite serial]. rewrite !tfr_bits_serial. reflexivity.
  - cbn [pulseHigh digitalWrite ddsBus is_dds_pin].
    rewrite !tfr_bits_bus. unfold frame.
    rewrite !land_255, !Z.shiftr_div_pow2 by lia.
    rewrite !Z.div_div by lia. change (2 ^ 8) with 256. cbn [Z.mul Pos.mul].
    unfold wrap8, byteWrites. rewrite !Z.mod_mod by lia.
    rewrite <- !app_assoc. reflexivity.
Qed.

Lemma ddsSetFreq_out f st :
  (F_MIN <? f) && (f <? F_MAX) = false ->
  ddsSetFreq f st =
  mkVfo (hw st) (scaleFactor st) (fDDS st) (trackMode st) (lockMode st)
        (oldLockBtnPressed st) (levels st) (ddsBus st)
        (serial st ++ warning f) (eeprom st).
Proof.
  intros H. unfold ddsSetFreq. rewrite H.
  unfold Serial_println, Serial_print, warning. cbn.
  rewrite <- !app_assoc. reflexivity.
Qed.

Lemma ddsSetFreq_core f st : core (ddsSetFreq f st) = core st.
Proof.
  destruct ((F_MIN <? f) && (f <? F_MAX)) eqn:E.
  - apply andb_true_iff in E as (A & B). apply Z.ltb_lt in A, B.
    apply ddsSetFreq_in; lia.
  - rewrite ddsSetFreq_out by exact E. reflexivity.
Qed.

Lemma ddsSetFreq_levels f st p :
  is_dds_pin p = false -> levels (ddsSetFreq f st) p = levels st p.
Proof.
  intros Hp. destruct ((F_MIN <? f) && (f <? F_MAX)) eqn:E.
  - unfold ddsSetFreq. rewrite E. cbn [tfr_word]. unfold tfr_byte.
    cbn [pulseHigh digitalWrite levels].
    replace (pin_eqb p pinDdsLoad) with false by (destruct p; try discriminate Hp; reflexivity).
    rewrite !tfr_bits_levels by exact Hp. reflexivity.
  - rewrite ddsSetFreq_out by exact E. reflexivity.
Qed.

Lemma frame_nonempty tw : frame tw <> [].
Proof. unfold frame, byteWrites. cbn [bitsWrites bitWrites app]. discriminate. Qed.

Lemma ddsSetFreq_fields f st :
  hw (ddsSetFreq f st) = hw st /\
  scaleFactor (ddsSetFreq f st) = scaleFactor st /\
  fDDS (ddsSetFreq f st) = fDDS st /\
  trackMode (ddsSetFreq f st) = trackMode st /\
  lockMode (ddsSetFreq f st) = lockMode st /\
  oldLockBtnPressed (ddsSetFreq f st) = oldLockBtnPressed st /\
  eeprom (ddsSetFreq f st) = eeprom st.
Proof.
  pose proof (ddsSetFreq_core f st) as Hc. unfold core in Hc.
  injection Hc as C1 C2 C3 C4 C5 C6 C7. repeat split; assumption.
Qed.

Lemma inBand_iff f : inBand f = true <-> F_MIN < f < F_MAX.
Proof. unfold inBand. rewrite andb_true_iff, !Z.ltb_lt. reflexivity. Qed.

Lemma ddsSetFreq_bus f st :
  ddsBus (ddsSetFreq f st) =
    (if inBand f then ddsBus st ++ frame (tuningWordOf f) else ddsBus st).
Proof.
  destruct (inBand f) eqn:E.
  - apply ddsSetFreq_in, inBand_iff, E.
  - rewrite (ddsSetFreq_out f st E). reflexivity.
Qed.

End DriverFacts.

(** C3, as stated, fails at both ends of the band: [F_MIN] and [F_MAX]
    lie within [[F_MIN, F_MAX]], yet [ddsSetFreq] sends nothing for them
    and prints the warning. *)
Lemma ddsSetFreq_rejects_band_ends :
  (F_MIN <= F_MIN <= F_MAX /\
   ddsBus (ddsSetFreq F_MIN (power_on blank)) = ddsBus (power_on blank) /\
   serial (ddsSetFreq F_MIN (power_on blank)) = warning F_MIN) /\
  (F_MIN <= F_MAX <= F_MAX /\
   ddsBus (ddsSetFreq F_MAX (power_on blank)) = ddsBus (power_on blank) /\
   serial (ddsSetFreq F_MAX (power_on blank)) = warning F_MAX).
Proof. repeat split; try discriminate; reflexivity. Qed.

(** C3, amended: [ddsSetFreq] sends the 40-bit frame of the tuning word
    exactly when [F_MIN < f < F_MAX], the bounds excluded; for every
    other [f] it writes nothing to the pins of the synthesizer, leaves
    every pin level and every variable as they were and prints the
    warning. *)
Theorem ddsSetFreq_transmits_iff (f : Z) (st : vfo) :
  (inBand f = true <-> F_MIN < f < F_MAX) /\
  (ddsBus (ddsSetFreq f st) <> ddsBus st <-> F_MIN < f < F_MAX) /\
  ddsBus (ddsSetFreq f st) =
    (if inBand f then ddsBus st ++ frame (tuningWordOf f) else ddsBus st) /\
  serial (ddsSetFreq f st) =
    (if inBand f then serial st else serial st ++ warning f) /\
  core (ddsSetFreq f st) = core st /\
  (if inBand f then True else levels (ddsSetFreq f st) = levels st).
Proof.
  pose proof (inBand_iff f) as Hb.
  split; [exact Hb|].
  split; [|split; [apply ddsSetFreq_bus|split; [|split; [apply ddsSetFreq_core|]]]].
  - rewrite ddsSetFreq_bus. destruct (inBand f).
    + split; [intros _; apply Hb; reflexivity|].
      intros _ E. symmetry in E. rewrite <- (app_nil_r (ddsBus st)) in E at 1.
      apply app_inv_head in E. symmetry in E. exact (frame_nonempty _ E).
    + split; [intros E; exfalso; apply E; reflexivity|].
      intros E. apply Hb in E. discriminate E.
  - destruct (inBand f) eqn:E.
    + apply ddsSetFreq_in, Hb. reflexivity.
    + rewrite (ddsSetFreq_out f st E). reflexivity.
  - destruct (inBand f) eqn:E; [exact I|].
    rewrite (ddsSetFreq_out f st E). reflexivity.
Qed.

(** * Facts about the mode logic *)

Section ModeFacts.

Lemma wrap32_range x : 0 <= wrap32 x < 4294967296.
Proof. unfold wrap32. apply Z.mod_pos_bound. lia. Qed.

Lemma CheckCtrlPins_fields vfoDC valA st :
  let st' := CheckCtrlPins vfoDC valA st in
  hw st' = hw st /\ scaleFactor st' = scaleFactor st /\ eeprom st' = eeprom st /\
  trackMode st' = negb vfoDC /\
  lockMode st' =
    match decode valA with
    | LockButton => if oldLockBtnPressed st then lockMode st else negb (lockMode st)
    | _ => lockMode st
    end /\
  oldLockBtnPressed st' =
    match decode valA with
    | NoButton => false
    | LockButton => true
    | _ => oldLockBtnPressed st
    end /\
  fDDS st' =
    match decode valA with
    | DownButton => if vfoDC then wrap32 (fDDS st + 5) else fDDS st
    | UpButton => if vfoDC then wrap32 (fDDS st - 5) else fDDS st
    | _ => fDDS st
    end /\
  ddsBus st' =
    match decode valA with
    | DownButton | UpButton =>
        if vfoDC && inBand (fDDS st') then ddsBus st ++ frame (tuningWordOf (fDDS st'))
        else ddsBus st
    | _ => ddsBus st
    end.
Proof.
  unfold CheckCtrlPins, decode. cbv zeta.
  destruct (NO_BUTS_THRESH <? valA); [repeat split; reflexivity|].
  destruct (valA <? BTN_LOCK_THRESH).
  - cbn [set_trackMode digitalWrite oldLockBtnPressed].
    destruct (oldLockBtnPressed st) eqn:Eo; cbn; rewrite ?Eo; repeat split; reflexivity.
  - cbn [set_trackMode digitalWrite trackMode].
    destruct vfoDC; cbn [negb andb]; [|destruct (valA <? BTN_UP_THRESH); repeat split; reflexivity].
    destruct (valA <? BTN_UP_THRESH);
      match goal with |- context [ddsSetFreq ?f ?s] =>
        pose proof (ddsSetFreq_core f s) as Hc;
        pose proof (ddsSetFreq_bus f s) as Hbus;
        set (r := ddsSetFreq f s) in *
      end;
      unfold core in Hc; injection Hc as H1 H2 H3 H4 H5 H6 H7;
      rewrite H1, H2, H3, H7, H5, H6, H4, Hbus; cbn; repeat split; reflexivity.
Qed.

Lemma loop_returns cy st :
  (exists st', loop cy st = Some st') <->
  (exists c g, getGatedCount (irq cy) (hw st) = Some (c, g)).
Proof.
  unfold loop. cbn [digitalWrite hw].
  destruct (getGatedCount (irq cy) (hw st)) as [(c, g)|].
  - split; [intros _; eauto|intros _].
    match goal with |- context [if ?b then _ else _] => destruct b end; eauto.
  - split; intros (x & H); [discriminate H|destruct H as (y & H); discriminate H].
Qed.

(** One pass of [loop], field by field. *)
Lemma loop_fields cy st c g :
  getGatedCount (irq cy) (hw st) = Some (c, g) ->
  exists st',
    loop cy st = Some st' /\
    hw st' = g /\ scaleFactor st' = scaleFactor st /\ eeprom st' = eeprom st /\
    trackMode st' = negb (vfoDC cy) /\
    lockMode st' =
      match decode (valA cy) with
      | LockButton => if oldLockBtnPressed st then lockMode st else negb (lockMode st)
      | _ => lockMode st
      end /\
    oldLockBtnPressed st' =
      match decode (valA cy) with
      | NoButton => false
      | LockButton => true
      | _ => oldLockBtnPressed st
      end /\
    fDDS st' =
      (if vfoDC cy then
         match decode (valA cy) with
         | DownButton => wrap32 (fDDS st + 5)
         | UpButton => wrap32 (fDDS st - 5)
         | _ => fDDS st
         end
       else if lockMode st' then fDDS st
       else to_uint32 (resolve c (scaleFactor st))) /\
    ddsBus st' =
      (if vfoDC cy then
         match decode (valA cy) with
         | DownButton | UpButton =>
             if inBand (fDDS st') then ddsBus st ++ frame (tuningWordOf (fDDS st'))
             else ddsBus st
         | _ => ddsBus st
         end
       else if lockMode st' then ddsBus st
       else if inBand (fDDS st') then ddsBus st ++ frame (tuningWordOf (fDDS st'))
       else ddsBus st).
Proof.
  intros Hg. unfold loop. cbn [digitalWrite hw]. rewrite Hg.
  match goal with |- context [CheckCtrlPins ?a ?b ?s] =>
    destruct (CheckCtrlPins_fields a b s) as (A1 & A2 & A3 & A4 & A5 & A6 & A7 & A8);
    set (s1 := CheckCtrlPins a b s) in *
  end.
  cbv zeta in *. cbn [set_hw digitalWrite hw scaleFactor eeprom lockMode oldLockBtnPressed fDDS ddsBus is_dds_pin] in *.
  rewrite A4.
  destruct (vfoDC cy) eqn:Ev; cbn [negb andb].
  - eexists. split; [reflexivity|].
    rewrite A1, A2, A3, A5, A6, A8, A7. cbn [andb].
    destruct (decode (valA cy)); repeat split; try assumption; reflexivity.
  - destruct (lockMode s1) eqn:El; cbn [negb].
    + eexists. split; [reflexivity|].
      rewrite A1, A2, A3, A6, A7, A8, El, <- A5.
      destruct (decode (valA cy)); repeat split; try assumption; auto.
    + eexists. split; [reflexivity|].
      match goal with |- context [ddsSetFreq ?f ?s] =>
        pose proof (ddsSetFreq_core f s) as Hc;
        pose proof (ddsSetFreq_bus f s) as Hbus;
        set (r := ddsSetFreq f s) in *
      end.
      unfold core in Hc. injection Hc as H1 H2 H3 H4 H5 H6 H7.
      cbn [set_fDDS hw scaleFactor fDDS trackMode lockMode oldLockBtnPressed eeprom ddsBus] in *.
      rewrite H1, H2, H3, H5, H6, H7, Hbus, A1, A2, A3, A6, A8, El, <- A5.
      destruct (decode (valA cy)); repeat split; try assumption; auto;
        rewrite H4; exact A4.
Qed.

Lemma states_locked cys st :
  Forall (fun s => trackMode s = true /\ lockMode s = true) (states cys st) ->
  Forall (fun s => fDDS s = fDDS st /\ ddsBus s = ddsBus st) (states cys st).
Proof.
  revert st. induction cys as [|cy cys IH]; intros st H; cbn [states] in *; [constructor|].
  destruct (loop cy st) as [st'|] eqn:El; [|constructor].
  inversion H as [|x l (Ht & Hl) Hrest]; subst.
  destruct (proj1 (loop_returns cy st) (ex_intro _ st' El)) as (c & g & Hg).
  destruct (loop_fields cy st c g Hg) as (st2 & El2 & _ & _ & _ & B4 & _ & _ & B7 & B8).
  rewrite El in El2. injection El2 as <-.
  rewrite Ht in B4. destruct (vfoDC cy); [discriminate B4|].
  rewrite Hl in B7, B8.
  constructor; [split; assumption|].
  specialize (IH st' Hrest). rewrite B7, B8 in IH. exact IH.
Qed.

Lemma wrap32_sub5 f : 5 <= f < 4294967296 -> wrap32 (f - 5) = f - 5.
Proof. intros H. unfold wrap32. apply Z.mod_small. lia. Qed.

Lemma wrap32_add5 f : 0 <= f < 4294967291 -> wrap32 (f + 5) = f + 5.
Proof. intros H. unfold wrap32. apply Z.mod_small. lia. Qed.

Lemma wrap32_moves f d : d = 5 \/ d = -5 -> wrap32 (f + d) <> f.
Proof.
  intros Hd E. pose proof (wrap32_range (f + d)) as Hr. rewrite E in Hr.
  unfold wrap32 in E.
  pose proof (Z.div_mod (f + d) 4294967296 ltac:(lia)) as Hdm.
  rewrite E in Hdm. lia.
Qed.

Lemma presses_down n st valA :
  decode valA = DownButton ->
  0 <= fDDS st -> fDDS st + 5 * Z.of_nat n < 4294967296 ->
  fDDS (presses n true valA st) = fDDS st + 5 * Z.of_nat n.
Proof.
  intros Hd. revert st. induction n as [|n IH]; intros st H0 H1; cbn [presses]; [lia|].
  destruct (CheckCtrlPins_fields true valA st) as (_ & _ & _ & _ & _ & _ & A7 & _).
  cbv zeta in A7. rewrite Hd in A7. rewrite wrap32_add5 in A7 by lia.
  rewrite IH; rewrite A7; lia.
Qed.

Lemma presses_up n st valA :
  decode valA = UpButton ->
  5 * Z.of_nat n <= fDDS st < 4294967296 ->
  fDDS (presses n true valA st) = fDDS st - 5 * Z.of_nat n.
Proof.
  intros Hd. revert st. induction n as [|n IH]; intros st H0; cbn [presses]; [lia|].
  destruct (CheckCtrlPins_fields true valA st) as (_ & _ & _ & _ & _ & _ & A7 & _).
  cbv zeta in A7. rewrite Hd in A7. rewrite wrap32_sub5 in A7 by lia.
  rewrite IH; rewrite A7; lia.
Qed.

Lemma loops_lockMode_kept cys st st' :
  loops cys st = Some st' ->
  oldLockBtnPressed st = true ->
  Forall (fun cy => decode (valA cy) <> NoButton) cys ->
  lockMode st' = lockMode st /\ oldLockBtnPressed st' = true.
Proof.
  revert st. induction cys as [|cy cys IH]; intros st Hl Ho Hf; cbn [loops] in Hl.
  - injection Hl as <-. auto.
  - destruct (loop cy st) as [s1|] eqn:El; [|discriminate Hl].
    inversion Hf as [|x l Hx Hrest]; subst.
    destruct (proj1 (loop_returns cy st) (ex_intro _ s1 El)) as (c & g & Hg).
    destruct (loop_fields cy st c g Hg) as (s2 & El2 & _ & _ & _ & _ & B5 & B6 & _).
    rewrite El in El2. injection El2 as <-.
    rewrite Ho in B5, B6.
    assert (lockMode s1 = lockMode st /\ oldLockBtnPressed s1 = true) as (E1 & E2).
    { destruct (decode (valA cy)); auto; congruence. }
    destruct (IH s1 Hl E2 Hrest) as (E3 & E4). split; congruence.
Qed.

End ModeFacts.

(** C7, as stated, fails: from reset with an erased EEPROM, a cycle in
    tracking mode, unlocked, with no signal at the input sets [fDDS] to
    0, and nothing is sent to the synthesizer for it; in the next cycle,
    in hold mode with the 'up' button pressed, [fDDS] goes from 0 to
    4294967291, a change that is not 5 Hz. *)
Lemma nudge_up_from_zero_wraps :
  option_map (fun s => (trackMode s, lockMode s, fDDS s))
    (sketch blank 1023 [] [mkCycle (gateOf 0) false 1023]) = Some (true, false, 0) /\
  option_map ddsBus (sketch blank 1023 [] [mkCycle (gateOf 0) false 1023])
    = option_map ddsBus (sketch blank 1023 [] []) /\
  decode 600 = UpButton /\
  option_map (fun s => (trackMode s, fDDS s))
    (sketch blank 1023 [] [mkCycle (gateOf 0) false 1023; mkCycle (gateOf 0) true 600])
    = Some (false, 4294967291) /\
  0 - 4294967291 <> 5.
Proof.
  split; [vm_compute; reflexivity|].
  split; [vm_compute; reflexivity|].
  split; [vm_compute; reflexivity|].
  split; [vm_compute; reflexivity|discriminate].
Qed.

(** C7, amended: in a cycle that ends with Tracking and not Locked,
    [fDDS] becomes the gated count times the scale factor, the fraction
    dropped, and is handed to [ddsSetFreq] (which sends it only within
    the band); in cycles that end with Tracking and Locked, [fDDS] and
    what the synthesizer received stay as they were, over any number of
    cycles; with Tracking off, the 'up' button gives [(fDDS - 5) mod 2^32]
    and the 'down' button [(fDDS + 5) mod 2^32], which is a change of
    exactly 5 Hz unless the 32-bit value wraps around. *)
Theorem loop_mode_table :
  (forall cy st c g,
     getGatedCount (irq cy) (hw st) = Some (c, g) ->
     exists st',
       loop cy st = Some st' /\
       trackMode st' = negb (vfoDC cy) /\
       if trackMode st' then
         if lockMode st' then fDDS st' = fDDS st /\ ddsBus st' = ddsBus st
         else fDDS st' = to_uint32 (resolve c (scaleFactor st)) /\
              ddsBus st' = ddsBus (ddsSetFreq (fDDS st') st)
       else
         fDDS st' =
           match decode (valA cy) with
           | UpButton => wrap32 (fDDS st - 5)
           | DownButton => wrap32 (fDDS st + 5)
           | _ => fDDS st
           end) /\
  (forall cys st,
     Forall (fun s => trackMode s = true /\ lockMode s = true) (states cys st) ->
     Forall (fun s => fDDS s = fDDS st /\ ddsBus s = ddsBus st) (states cys st)) /\
  (forall f, 5 <= f < 4294967296 -> wrap32 (f - 5) = f - 5) /\
  (forall f, 0 <= f < 4294967291 -> wrap32 (f + 5) = f + 5).
Proof.
  split; [|split; [exact states_locked|split; [exact wrap32_sub5|exact wrap32_add5]]].
  intros cy st c g Hg.
  destruct (loop_fields cy st c g Hg) as (st' & El & _ & _ & _ & B4 & B5 & B6 & B7 & B8).
  exists st'. split; [exact El|]. split; [exact B4|].
  rewrite B4. destruct (vfoDC cy); cbn [negb] in *.
  - rewrite B7. destruct (decode (valA cy)); reflexivity.
  - destruct (lockMode st'); [split; assumption|].
    split; [exact B7|]. rewrite ddsSetFreq_bus. exact B8.
Qed.

(** C9: the nudges add or subtract 5 whatever the band, tracking stores
    the resolved frequency whatever the band, so [fDDS] leaves the band
    (after reset, one tracking cycle without signal leaves it at 0);
    nothing is sent for a value outside the band; and as many nudges the
    other way bring [fDDS] back to where it was, inside the band. *)
Theorem fDDS_not_clamped :
  (forall st valA,
     fDDS (CheckCtrlPins true valA st) =
       match decode valA with
       | DownButton => wrap32 (fDDS st + 5)
       | UpButton => wrap32 (fDDS st - 5)
       | _ => fDDS st
       end /\
     ddsBus (CheckCtrlPins true valA st) =
       match decode valA with
       | DownButton | UpButton =>
           if inBand (fDDS (CheckCtrlPins true valA st))
           then ddsBus st ++ frame (tuningWordOf (fDDS (CheckCtrlPins true valA st)))
           else ddsBus st
       | _ => ddsBus st
       end) /\
  (forall cy st c g,
     getGatedCount (irq cy) (hw st) = Some (c, g) ->
     exists st',
       loop cy st = Some st' /\
       (trackMode st' && negb (lockMode st') = true ->
        fDDS st' = to_uint32 (resolve c (scaleFactor st)) /\
        ddsBus st' = if inBand (fDDS st')
                     then ddsBus st ++ frame (tuningWordOf (fDDS st'))
                     else ddsBus st)) /\
  (option_map (fun s => (fDDS s, inBand (fDDS s)))
     (sketch blank 1023 [] [mkCycle (gateOf 0) false 1023]) = Some (0, false)) /\
  decode 300 = DownButton /\ decode 600 = UpButton /\
  (forall n st,
     inBand (fDDS st) = true ->
     F_MAX <= fDDS st + 5 * Z.of_nat n < 4294967296 ->
     inBand (fDDS (presses n true 300 st)) = false /\
     fDDS (presses n true 300 st) = fDDS st + 5 * Z.of_nat n /\
     fDDS (presses n true 600 (presses n true 300 st)) = fDDS st).
Proof.
  repeat apply conj.
  - intros st valA.
    destruct (CheckCtrlPins_fields true valA st) as (_ & _ & _ & _ & _ & _ & A7 & A8).
    cbv zeta in *. cbn [andb] in A8. split; [exact A7|exact A8].
  - intros cy st c g Hg.
    destruct (loop_fields cy st c g Hg) as (st' & El & _ & _ & _ & B4 & _ & _ & B7 & B8).
    exists st'. split; [exact El|]. intros Hm.
    apply andb_true_iff in Hm as (Ht & Hl). apply negb_true_iff in Hl.
    rewrite Ht in B4. destruct (vfoDC cy); [discriminate B4|].
    rewrite Hl in B7, B8. split; assumption.
  - vm_compute. reflexivity.
  - reflexivity.
  - reflexivity.
  - intros n st Hin Hout. apply inBand_iff in Hin. unfold F_MIN in Hin.
    assert (Hd : fDDS (presses n true 300 st) = fDDS st + 5 * Z.of_nat n)
      by (apply presses_down; [reflexivity|lia|lia]).
    split; [|split; [exact Hd|]].
    + rewrite Hd. destruct (inBand _) eqn:E; [|reflexivity].
      apply inBand_iff in E. lia.
    + rewrite presses_up; [rewrite Hd; lia|reflexivity|rewrite Hd; lia].
Qed.

(** C10, as stated, fails: after reset, with the radio's VFO on
    (Tracking) and the lock set by one press of the lock button, a nudge
    button held through the next two cycles leaves [fDDS] as it was,
    while the gated count changes. *)
Lemma held_nudge_ignored_while_tracking :
  decode 0 = LockButton /\ decode 600 = UpButton /\
  option_map (fun s => (trackMode s, lockMode s, fDDS s))
    (sketch blank 1023 [] [mkCycle (gateOf 7) false 0])
    = Some (true, true, 5250000) /\
  option_map (fun s => (trackMode s, lockMode s, fDDS s))
    (sketch blank 1023 [] [mkCycle (gateOf 7) false 0; mkCycle (gateOf 9) false 600])
    = Some (true, true, 5250000) /\
  option_map (fun s => (trackMode s, lockMode s, fDDS s))
    (sketch blank 1023 []
       [mkCycle (gateOf 7) false 0; mkCycle (gateOf 9) false 600;
        mkCycle (gateOf 11) false 600])
    = Some (true, true, 5250000).
Proof.
  split; [vm_compute; reflexivity|].
  split; [vm_compute; reflexivity|].
  split; [vm_compute; reflexivity|].
  split; vm_compute; reflexivity.
Qed.

(** C10, amended: [lockMode] changes in a cycle exactly when the lock
    button is read as pressed and [oldLockBtnPressed] is false, that is,
    when no lock press was seen since reset or since the last cycle that
    read no button at all; holding the lock button over consecutive
    cycles therefore toggles once at most, and no toggle can follow
    another without a cycle with no button in between; in hold mode
    (Tracking off) a held nudge button changes [fDDS] in every cycle. *)
Theorem lock_edge_triggered_nudge_repeats :
  (forall cy st c g,
     getGatedCount (irq cy) (hw st) = Some (c, g) ->
     exists st',
       loop cy st = Some st' /\
       (lockMode st' <> lockMode st <->
        decode (valA cy) = LockButton /\ oldLockBtnPressed st = false) /\
       oldLockBtnPressed st' =
         match decode (valA cy) with
         | NoButton => false
         | LockButton => true
         | _ => oldLockBtnPressed st
         end /\
       (vfoDC cy = true ->
        decode (valA cy) = UpButton \/ decode (valA cy) = DownButton ->
        fDDS st' <> fDDS st)) /\
  (forall cy cys st st',
     loops (cy :: cys) st = Some st' ->
     Forall (fun cy => decode (valA cy) = LockButton) (cy :: cys) ->
     lockMode st' = (if oldLockBtnPressed st then lockMode st else negb (lockMode st))) /\
  (forall cys st st',
     loops cys st = Some st' ->
     oldLockBtnPressed st = true ->
     Forall (fun cy => decode (valA cy) <> NoButton) cys ->
     lockMode st' = lockMode st).
Proof.
  repeat apply conj.
  - intros cy st c g Hg.
    destruct (loop_fields cy st c g Hg) as (st' & El & _ & _ & _ & _ & B5 & B6 & B7 & _).
    exists st'. split; [exact El|]. split; [|split; [exact B6|]].
    + rewrite B5. destruct (decode (valA cy)), (oldLockBtnPressed st), (lockMode st);
        cbn; split; try (intros (? & ?)); try intros ?; try discriminate;
        try congruence; auto.
    + intros Hv Hb. rewrite Hv in B7. rewrite B7.
      destruct Hb as [-> | ->]; apply wrap32_moves; [right|left]; reflexivity.
  - intros cy cys st st' Hl Hf. cbn [loops] in Hl.
    destruct (loop cy st) as [s1|] eqn:El; [|discriminate Hl].
    inversion Hf as [|x l Hx Hrest]; subst.
    destruct (proj1 (loop_returns cy st) (ex_intro _ s1 El)) as (c & g & Hg).
    destruct (loop_fields cy st c g Hg) as (s2 & El2 & _ & _ & _ & _ & B5 & B6 & _).
    rewrite El in El2. injection El2 as <-.
    rewrite Hx in B5, B6.
    assert (Hn : Forall (fun cy => decode (valA cy) <> NoButton) cys).
    { eapply Forall_impl; [|exact Hrest]. cbn. intros a ->. discriminate. }
    destruct (loops_lockMode_kept cys s1 st' Hl B6 Hn) as (E & _).
    rewrite E. exact B5.
  - intros cys st st' Hl Ho Hf.
    apply (loops_lockMode_kept cys st st' Hl Ho Hf).
Qed.

(** * Facts about the calibration *)

Section CalibFacts.

Lemma getGatedCount_range w g v g' :
  gate_ok g -> getGatedCount w g = Some (v, g') ->
  0 <= v < 16777216 /\ gate_ok g'.
Proof.
  intros Hok H. unfold getGatedCount in H.
  destruct (spinWait (during_wait w) g) as [g1|] eqn:E; [|discriminate H].
  apply spinWait_run in E. subst g1. cbv zeta in H.
  set (g3 := run (after_rearm w) (rearm (run (during_wait w) g))) in H.
  set (x := wrap32 _) in H. injection H as <- <-.
  assert (H3 : gate_ok g3) by (apply run_ok, rearm_ok, run_ok, Hok).
  assert (H4 : gate_ok (run (between_reads w) g3)) by (apply run_ok, H3).
  split; [|exact H4].
  destruct H3 as (_ & _ & _ & Ha & _). destruct H4 as (_ & _ & _ & _ & Hc).
  subst x. destruct (lor_combine _ _ Ha Hc) as (-> & ->). lia.
Qed.

Lemma readings_app a b g :
  readings (a ++ b) g =
  match readings a g with
  | None => None
  | Some (ca, g1) =>
      match readings b g1 with
      | None => None
      | Some (cb, g2) => Some (ca ++ cb, g2)
      end
  end.
Proof.
  revert g. induction a as [|w a IH]; intros g; cbn [app readings].
  - destruct (readings b g) as [(cb, g2)|]; reflexivity.
  - destruct (getGatedCount w g) as [(c, g1)|]; [|reflexivity].
    rewrite IH. destruct (readings a g1) as [(ca, g2)|]; [|reflexivity].
    destruct (readings b g2) as [(cb, g3)|]; reflexivity.
Qed.

Lemma readings_ok used g cs g' :
  gate_ok g -> readings used g = Some (cs, g') ->
  gate_ok g' /\ List.length cs = List.length used /\
  Forall (fun c => 0 <= c < 16777216) cs.
Proof.
  revert g cs. induction used as [|w used IH]; intros g cs Hok H; cbn [readings] in H.
  - injection H as <- <-. repeat split; [apply Hok..|constructor].
  - destruct (getGatedCount w g) as [(c, g1)|] eqn:E; [|discriminate H].
    destruct (readings used g1) as [(cs1, g2)|] eqn:E1; [|discriminate H].
    injection H as <- <-.
    destruct (getGatedCount_range w g c g1 Hok E) as (Hc & Hok1).
    destruct (IH g1 cs1 Hok1 E1) as (A & B & C).
    split; [exact A|]. split; [cbn; congruence|]. constructor; assumption.
Qed.

Lemma sum_bound cs :
  Forall (fun c => 0 <= c < 16777216) cs ->
  0 <= sum cs <= 16777215 * Z.of_nat (List.length cs).
Proof.
  induction 1 as [|c cs Hc _ IH]; cbn [sum fold_right List.length]; [lia|].
  fold (sum cs). lia.
Qed.

Lemma sum_app a b : sum (a ++ b) = sum a + sum b.
Proof. induction a as [|x a IH]; cbn [app sum fold_right]; [reflexivity|]. fold (sum (a ++ b)) (sum a). lia. Qed.

(** The inner loop: [n] readings, added without wrap-around. *)
Lemma accumulate_spec n : forall used rest cs g' acc st,
  List.length used = n ->
  readings used (hw st) = Some (cs, g') ->
  gate_ok (hw st) ->
  0 <= acc -> acc + 16777215 * Z.of_nat n < 4294967296 ->
  exists st',
    accumulate n (used ++ rest) acc st = Some (acc + sum cs, rest, st') /\
    hw st' = g' /\ serial st' = serial st /\ kept st st' /\
    levels st' pinLockLed =
      (if Nat.even n then levels st pinLockLed else negb (levels st pinLockLed)).
Proof.
  induction n as [|n IH]; intros used rest cs g' acc st Hlen Hr Hok H0 Hb.
  - destruct used; [|discriminate Hlen]. cbn in Hr. injection Hr as <- <-.
    exists st. cbn. rewrite Z.add_0_r. unfold kept. repeat split; reflexivity.
  - destruct used as [|w used]; [discriminate Hlen|]. injection Hlen as Hlen.
    cbn [readings] in Hr.
    destruct (getGatedCount w (hw st)) as [(c, g1)|] eqn:E; [|discriminate Hr].
    destruct (readings used g1) as [(cs1, g2)|] eqn:E1; [|discriminate Hr].
    injection Hr as <- <-.
    destruct (getGatedCount_range w _ c g1 Hok E) as (Hc & Hok1).
    cbn [app accumulate digitalWrite hw]. rewrite E.
    set (s1 := set_hw g1 _).
    assert (Hw : wrap32 (acc + c) = acc + c) by (unfold wrap32; apply Z.mod_small; lia).
    rewrite Hw.
    destruct (IH used rest cs1 g2 (acc + c) s1 Hlen E1 Hok1 ltac:(lia) ltac:(lia))
      as (st' & Ha & Hh & Hs & Hk & Hl).
    exists st'. split; [rewrite Ha; cbn [sum fold_right]; fold (sum cs1); f_equal; f_equal; f_equal; lia|].
    split; [exact Hh|]. split; [exact Hs|].
    destruct Hk as (K1 & K2 & K3 & K4 & K5 & K6 & K7 & K8).
    split.
    + unfold kept. repeat split; try assumption.
      intros p Hp. rewrite (K8 p Hp). subst s1. cbn.
      destruct p; try reflexivity. contradiction Hp; reflexivity.
    + rewrite Hl. subst s1. cbn [set_hw digitalWrite levels pin_eqb digitalRead].
      rewrite Nat.even_succ, <- Nat.negb_even.
      destruct (Nat.even n); cbn; [reflexivity|apply negb_involutive].
Qed.

Lemma firstn_skipn_length {A} (l : list A) k m :
  List.length l = (k + m)%nat ->
  List.length (firstn k l) = k /\ List.length (skipn k l) = m.
Proof. intros H. rewrite length_firstn, length_skipn. lia. Qed.

(** The outer loop: [n] passes, each over its own ten readings. *)
Lemma settle_spec n : forall used rest cs g' r0 st,
  List.length used = (10 * n)%nat ->
  readings used (hw st) = Some (cs, g') ->
  gate_ok (hw st) ->
  exists st',
    settle n (used ++ rest) r0 st
      = Some (lastRatio n cs (scaleFactor st) r0, rest, st') /\
    hw st' = g' /\ kept st st' /\
    levels st' pinLockLed = levels st pinLockLed /\
    serial st' = serial st ++ reports n cs (fDDS st) (scaleFactor st).
Proof.
  induction n as [|n IH]; intros used rest cs g' r0 st Hlen Hr Hok.
  - destruct used; [|discriminate Hlen]. cbn in Hr. injection Hr as <- <-.
    exists st. cbn. rewrite app_nil_r. unfold kept. repeat split; reflexivity.
  - rewrite <- (firstn_skipn 10 used) in Hr |- *.
    destruct (firstn_skipn_length used 10 (10 * n) ltac:(lia)) as (L1 & L2).
    set (u1 := firstn 10 used) in *. set (u2 := skipn 10 used) in *.
    rewrite readings_app in Hr.
    destruct (readings u1 (hw st)) as [(c1, g1)|] eqn:E1; [|discriminate Hr].
    destruct (readings u2 g1) as [(c2, g2)|] eqn:E2; [|discriminate Hr].
    injection Hr as <- <-.
    destruct (readings_ok u1 _ c1 g1 Hok E1) as (Hok1 & Hl1 & Hf1).
    pose proof (sum_bound c1 Hf1) as Hsb. rewrite Hl1, L1 in Hsb.
    destruct (accumulate_spec 10 u1 (u2 ++ rest) c1 g1 0 st L1 E1 Hok ltac:(lia) ltac:(lia))
      as (s1 & Ha & Hh1 & Hs1 & Hk1 & Hled1).
    rewrite <- app_assoc. cbn [settle]. change (Z.to_nat NUM_ACCUM_LOOPS) with 10%nat.
    rewrite Ha. rewrite Z.add_0_l.
    destruct Hk1 as (K1 & K2 & K3 & K4 & K5 & K6 & K7 & K8).
    set (s2 := Serial_report _ _ _ s1).
    assert (Hok2 : gate_ok (hw s2)) by (subst s2; cbn; rewrite Hh1; exact Hok1).
    assert (Hr2 : readings u2 (hw s2) = Some (c2, g2)) by (subst s2; cbn; rewrite Hh1; exact E2).
    destruct (IH u2 rest c2 g2
                (fdiv (of_int F_MID)
                   (fdiv (fmul (of_int (sum c1)) (scaleFactor s1)) (of_int NUM_ACCUM_LOOPS)))
                s2 L2 Hr2 Hok2)
      as (st' & Hs & Hh & Hk & Hled & Hser).
    assert (Hc1 : List.length c1 = 10%nat) by congruence.
    assert (F1 : firstn 10 (c1 ++ c2) = c1).
    { rewrite firstn_app, Hc1, Nat.sub_diag, firstn_all2 by lia.
      cbn [firstn]. apply app_nil_r. }
    assert (F2 : skipn 10 (c1 ++ c2) = c2).
    { rewrite skipn_app, Hc1, Nat.sub_diag, skipn_all2 by lia. reflexivity. }
    exists st'. cbn [lastRatio reports]. rewrite F1, F2.
    unfold ratioOf, measured.
    destruct Hk as (J1 & J2 & J3 & J4 & J5 & J6 & J7 & J8).
    subst s2.
    cbn [Serial_report hw scaleFactor fDDS trackMode lockMode oldLockBtnPressed
         eeprom ddsBus levels serial] in *.
    split; [rewrite Hs, K1; reflexivity|]. split; [exact Hh|].
    split; [|split].
    + unfold kept. repeat split; try congruence.
      intros p Hp. rewrite (J8 p Hp). apply K8, Hp.
    + rewrite Hled. exact Hled1.
    + rewrite Hser, Hs1, K1, K2. unfold ratioOf, measured.
      rewrite <- app_assoc. reflexivity.
Qed.

Lemma lastRatio_last n : forall cs scale r0,
  List.length cs = (10 * S n)%nat ->
  lastRatio (S n) cs scale r0 = ratioOf (skipn (10 * n) cs) scale.
Proof.
  induction n as [|n IH]; intros cs scale r0 H.
  - cbn [lastRatio Nat.mul skipn]. rewrite firstn_all2 by lia. reflexivity.
  - change (lastRatio (S (S n)) cs scale r0)
      with (lastRatio (S n) (skipn 10 cs) scale (ratioOf (firstn 10 cs) scale)).
    rewrite IH by (rewrite length_skipn; lia).
    rewrite skipn_skipn. f_equal. f_equal. lia.
Qed.

(** [doCalib] over eighty readings. *)
Lemma doCalib_spec used rest cs g' st :
  gate_ok (hw st) ->
  List.length used = 80%nat ->
  readings used (hw st) = Some (cs, g') ->
  exists sm,
    doCalib (used ++ rest) st
      = Some (rest, storeCalib (ratioOf (skipn 70 cs) (scaleFactor st)) sm) /\
    hw sm = g' /\ scaleFactor sm = scaleFactor st /\ fDDS sm = fDDS st /\
    trackMode sm = trackMode st /\ lockMode sm = lockMode st /\
    oldLockBtnPressed sm = oldLockBtnPressed st /\ eeprom sm = eeprom st /\
    levels sm pinLockLed = levels st pinLockLed /\
    ddsBus sm = ddsBus st ++ frame (tuningWordOf F_MID) /\
    serial sm = serial st ++ [Println (Str "Calibrating...")]
                ++ reports 8 cs (fDDS st) (scaleFactor st).
Proof.
  intros Hok Hlen Hr. unfold doCalib.
  assert (Hin : F_MIN < F_MID < F_MAX) by (vm_compute; split; reflexivity).
  destruct (ddsSetFreq_in F_MID (Serial_println (Str "Calibrating...") st) Hin)
    as (_ & Hs & Hb).
  destruct (ddsSetFreq_fields F_MID (Serial_println (Str "Calibrating...") st))
    as (C1 & C2 & C3 & C4 & C5 & C6 & C7).
  pose proof (ddsSetFreq_levels F_MID (Serial_println (Str "Calibrating...") st)
                pinLockLed eq_refl) as Hled0.
  generalize dependent (ddsSetFreq F_MID (Serial_println (Str "Calibrating...") st)).
  intros s0 Hs Hb C1 C2 C3 C4 C5 C6 C7 Hled0.
  cbn [Serial_println hw scaleFactor fDDS trackMode lockMode oldLockBtnPressed
       eeprom serial ddsBus levels] in *.
  rewrite <- C1 in Hok, Hr.
  destruct (settle_spec 8 used rest cs g' (of_int 1) s0 Hlen Hr Hok)
    as (sm & Hset & Hh & Hk & Hled & Hser).
  destruct (readings_ok used _ cs g' Hok Hr) as (_ & Hl & _).
  rewrite (lastRatio_last 7) in Hset by lia.
  change (10 * 7)%nat with 70%nat in Hset.
  rewrite Hset. rewrite C2.
  destruct Hk as (K1 & K2 & K3 & K4 & K5 & K6 & K7 & K8).
  exists sm. split; [reflexivity|].
  repeat split; try congruence.
  rewrite Hser, Hs, C2, C3, <- app_assoc. reflexivity.
Qed.

(** The loops of [doCalib] never touch the scale factor or the EEPROM. *)
Lemma accumulate_kept n : forall sched acc st a rest st',
  accumulate n sched acc st = Some (a, rest, st') ->
  scaleFactor st' = scaleFactor st /\ eeprom st' = eeprom st.
Proof.
  induction n as [|n IH]; intros sched acc st a rest st' H; cbn [accumulate] in H.
  - injection H as <- <- <-. auto.
  - destruct sched as [|w sched]; [discriminate H|].
    cbn [digitalWrite hw] in H.
    destruct (getGatedCount w (hw st)) as [(c, g)|]; [|discriminate H].
    apply IH in H. exact H.
Qed.

Lemma settle_kept n : forall sched r0 st r rest st',
  settle n sched r0 st = Some (r, rest, st') ->
  scaleFactor st' = scaleFactor st /\ eeprom st' = eeprom st.
Proof.
  induction n as [|n IH]; intros sched r0 st r rest st' H; cbn [settle] in H.
  - injection H as <- <- <-. auto.
  - destruct (accumulate _ sched 0 st) as [((a, s1), st1)|] eqn:E; [|discriminate H].
    apply accumulate_kept in E. apply IH in H. cbn in H.
    destruct E, H. split; congruence.
Qed.

Lemma storeCalib_fields r st :
  scaleFactor (storeCalib r st) = scaleFactor st /\
  hw (storeCalib r st) = hw st /\ fDDS (storeCalib r st) = fDDS st /\
  ddsBus (storeCalib r st) = ddsBus st /\
  serial (storeCalib r st) = serial st ++ verdict r /\
  eeprom (storeCalib r st) =
    (if ratio_ok r then EEPROM_put EE_ADDRESS r (eeprom st) else eeprom st) /\
  lockMode (storeCalib r st) = (if ratio_ok r then true else lockMode st) /\
  levels (storeCalib r st) pinLockLed =
    (if ratio_ok r then true else levels st pinLockLed).
Proof.
  unfold storeCalib, verdict. destruct (ratio_ok r); cbn; repeat split;
    try reflexivity; rewrite <- app_assoc; reflexivity.
Qed.

Lemma doCalib_scale sched st rest st' :
  doCalib sched st = Some (rest, st') -> scaleFactor st' = scaleFactor st.
Proof.
  unfold doCalib. intros H.
  destruct (settle 8 sched (of_int 1) _) as [((r, s1), sm)|] eqn:E; [|discriminate H].
  injection H as <- <-. apply settle_kept in E. destruct E as (E & _).
  destruct (storeCalib_fields r sm) as (-> & _). rewrite E.
  destruct (ddsSetFreq_fields F_MID (Serial_println (Str "Calibrating...") st))
    as (_ & C2 & _).
  rewrite C2. reflexivity.
Qed.

End CalibFacts.

(** * The stored calibration ratio as bytes *)

Section StorageFacts.

Lemma four_bytes b :
  0 <= b < 4294967296 ->
  b mod 256 + 256 * ((b / 256) mod 256) + 65536 * ((b / 65536) mod 256)
  + 16777216 * ((b / 16777216) mod 256) = b.
Proof.
  intros Hb. Z.div_mod_to_equations. lia.
Qed.

Lemma digits2_bounds m :
  2 ^ (Zpos (digits2_pos m) - 1) <= Zpos m < 2 ^ Zpos (digits2_pos m).
Proof.
  induction m as [m IH|m IH|]; cbn [digits2_pos].
  - rewrite Pos2Z.inj_succ.
    replace (Z.succ (Zpos (digits2_pos m)) - 1) with (Z.succ (Zpos (digits2_pos m) - 1)) by lia.
    rewrite !Z.pow_succ_r by lia. lia.
  - rewrite Pos2Z.inj_succ.
    replace (Z.succ (Zpos (digits2_pos m)) - 1) with (Z.succ (Zpos (digits2_pos m) - 1)) by lia.
    rewrite !Z.pow_succ_r by lia. lia.
  - cbn. lia.
Qed.

(** The two shapes of a well-formed finite binary32 value. *)
Lemma valid_finite_shape s m e :
  valid_binary prec emax (S754_finite s m e) = true ->
  (8388608 <= Zpos m < 16777216 /\ -149 <= e <= 104) \/
  (Zpos m < 8388608 /\ e = -149).
Proof.
  cbn [valid_binary]. unfold bounded, canonical_mantissa, fexp, emin, prec, emax.
  intros H. apply andb_true_iff in H as (Hc & He).
  apply Z.eqb_eq in Hc. apply Z.leb_le in He.
  pose proof (digits2_bounds m) as (Hlo & Hhi).
  set (d := Zpos (digits2_pos m)) in *.
  assert (Hd : 0 < d) by (subst d; lia).
  destruct (Z.le_gt_cases 24 d) as [Hge|Hlt].
  - left. assert (d = 24) by lia. replace d with 24 in * by lia.
    change (2 ^ (24 - 1)) with 8388608 in Hlo. change (2 ^ 24) with 16777216 in Hhi. lia.
  - right. split; [|lia].
    assert (2 ^ d <= 2 ^ 23) by (apply Z.pow_le_mono_r; lia).
    change (2 ^ 23) with 8388608 in *. lia.
Qed.

Lemma bits_fields (sgn : bool) ex r :
  0 <= ex < 256 -> 0 <= r < 8388608 ->
  let b := (if sgn then 2147483648 else 0) + (ex * 8388608 + r) in
  Z.testbit b 31 = sgn /\ (b / 8388608) mod 256 = ex /\ b mod 8388608 = r /\
  0 <= b < 4294967296.
Proof.
  intros Hex Hr b.
  assert (Hb : 0 <= b < 4294967296) by (subst b; destruct sgn; lia).
  split; [|split; [|split; [|exact Hb]]].
  - rewrite Z.testbit_odd, Z.shiftr_div_pow2 by lia.
    change (2 ^ 31) with 2147483648.
    destruct sgn; subst b.
    + replace ((2147483648 + (ex * 8388608 + r)) / 2147483648) with 1; [reflexivity|].
      Z.div_mod_to_equations. lia.
    + replace ((0 + (ex * 8388608 + r)) / 2147483648) with 0; [reflexivity|].
      Z.div_mod_to_equations. lia.
  - subst b. destruct sgn; Z.div_mod_to_equations; lia.
  - subst b. destruct sgn; Z.div_mod_to_equations; lia.
Qed.

Lemma double_bits_roundtrip x :
  valid_binary prec emax x = true ->
  double_of_bits (bits_of_double x) = x /\ 0 <= bits_of_double x < 4294967296.
Proof.
  intros Hv. destruct x as [s|s| |s m e]; cbn [bits_of_double].
  - destruct s; split; try reflexivity; lia.
  - destruct s; split; try reflexivity; cbn; lia.
  - split; [reflexivity|lia].
  - destruct (valid_finite_shape s m e Hv) as [(Hm & He)|(Hm & He)].
    + replace (Zpos m <? 8388608) with false by (symmetry; apply Z.ltb_ge; lia).
      destruct (bits_fields s (e + 150) (Zpos m - 8388608) ltac:(lia) ltac:(lia))
        as (A & B & C & D).
      cbv zeta in *. split; [|exact D].
      unfold double_of_bits. cbv zeta. rewrite A, B, C.
      replace (e + 150 =? 0) with false by (symmetry; apply Z.eqb_neq; lia).
      replace (e + 150 =? 255) with false by (symmetry; apply Z.eqb_neq; lia).
      f_equal; [|lia].
      replace (Zpos m - 8388608 + 8388608) with (Zpos m) by lia. reflexivity.
    + replace (Zpos m <? 8388608) with true by (symmetry; apply Z.ltb_lt; lia).
      destruct (bits_fields s 0 (Zpos m) ltac:(lia) ltac:(lia)) as (A & B & C & D).
      cbv zeta in *. rewrite Z.mul_0_l, Z.add_0_l in *. split; [|exact D].
      unfold double_of_bits. cbv zeta. rewrite A, B, C. cbn [Z.eqb].
      subst e. reflexivity.
Qed.

Lemma EEPROM_get_put a x ee :
  EEPROM_get a (EEPROM_put a x ee)
  = double_of_bits
      (bits_of_double x mod 256 + 256 * ((bits_of_double x / 256) mod 256)
       + 65536 * ((bits_of_double x / 65536) mod 256)
       + 16777216 * ((bits_of_double x / 16777216) mod 256)).
Proof.
  unfold EEPROM_get, EEPROM_put, wrap8.
  replace (a - a) with 0 by lia.
  replace (a + 1 - a) with 1 by lia.
  replace (a + 2 - a) with 2 by lia.
  replace (a + 3 - a) with 3 by lia.
  replace ((a <=? a) && (a <? a + 4)) with true
    by (symmetry; apply andb_true_iff; split; [apply Z.leb_le|apply Z.ltb_lt]; lia).
  replace ((a <=? a + 1) && (a + 1 <? a + 4)) with true
    by (symmetry; apply andb_true_iff; split; [apply Z.leb_le|apply Z.ltb_lt]; lia).
  replace ((a <=? a + 2) && (a + 2 <? a + 4)) with true
    by (symmetry; apply andb_true_iff; split; [apply Z.leb_le|apply Z.ltb_lt]; lia).
  replace ((a <=? a + 3) && (a + 3 <? a + 4)) with true
    by (symmetry; apply andb_true_iff; split; [apply Z.leb_le|apply Z.ltb_lt]; lia).
  change (256 ^ 0) with 1. change (256 ^ 1) with 256.
  change (256 ^ 2) with 65536. change (256 ^ 3) with 16777216.
  rewrite Z.div_1_r, !Z.mod_mod by lia. reflexivity.
Qed.

Lemma EEPROM_roundtrip a x ee :
  valid_binary prec emax x = true -> EEPROM_get a (EEPROM_put a x ee) = x.
Proof.
  intros Hv. destruct (double_bits_roundtrip x Hv) as (Hr & Hb).
  rewrite EEPROM_get_put, (four_bytes _ Hb). exact Hr.
Qed.

(** What [EEPROM.put] leaves in the four cells, and nowhere else. *)
Lemma EEPROM_put_cells a x ee : cells a (EEPROM_put a x ee) = bytesOf x.
Proof.
  unfold cells, bytesOf, EEPROM_put.
  replace (a - a) with 0 by lia.
  replace (a + 1 - a) with 1 by lia.
  replace (a + 2 - a) with 2 by lia.
  replace (a + 3 - a) with 3 by lia.
  replace ((a <=? a) && (a <? a + 4)) with true
    by (symmetry; apply andb_true_iff; split; [apply Z.leb_le|apply Z.ltb_lt]; lia).
  replace ((a <=? a + 1) && (a + 1 <? a + 4)) with true
    by (symmetry; apply andb_true_iff; split; [apply Z.leb_le|apply Z.ltb_lt]; lia).
  replace ((a <=? a + 2) && (a + 2 <? a + 4)) with true
    by (symmetry; apply andb_true_iff; split; [apply Z.leb_le|apply Z.ltb_lt]; lia).
  replace ((a <=? a + 3) && (a + 3 <? a + 4)) with true
    by (symmetry; apply andb_true_iff; split; [apply Z.leb_le|apply Z.ltb_lt]; lia).
  change (256 ^ 0) with 1. change (256 ^ 1) with 256.
  change (256 ^ 2) with 65536. change (256 ^ 3) with 16777216.
  rewrite Z.div_1_r. reflexivity.
Qed.

Lemma EEPROM_put_elsewhere a x ee a' :
  a' < a \/ a + 4 <= a' -> EEPROM_put a x ee a' = ee a'.
Proof.
  intros Ha. unfold EEPROM_put.
  replace ((a <=? a') && (a' <? a + 4)) with false; [reflexivity|].
  symmetry. apply andb_false_iff.
  destruct Ha; [left; apply Z.leb_gt|right; apply Z.ltb_ge]; lia.
Qed.

(** [EEPROM.get] looks at the four cells only. *)
Lemma EEPROM_get_cells a ee b0 b1 b2 b3 :
  cells a ee = [b0; b1; b2; b3] ->
  EEPROM_get a ee
  = double_of_bits (wrap8 b0 + 256 * wrap8 b1 + 65536 * wrap8 b2 + 16777216 * wrap8 b3).
Proof.
  unfold cells, EEPROM_get. intros H. injection H as -> -> -> ->. reflexivity.
Qed.

End StorageFacts.

Lemma getStoredCalib_fields st :
  scaleFactor (getStoredCalib st) =
    (if ratio_ok (EEPROM_get EE_ADDRESS (eeprom st))
     then fdiv (EEPROM_get EE_ADDRESS (eeprom st)) GATE_DUR
     else scaleFactor st) /\
  eeprom (getStoredCalib st) = eeprom st /\
  hw (getStoredCalib st) = hw st /\ fDDS (getStoredCalib st) = fDDS st /\
  trackMode (getStoredCalib st) = trackMode st /\
  lockMode (getStoredCalib st) = lockMode st /\
  oldLockBtnPressed (getStoredCalib st) = oldLockBtnPressed st /\
  ddsBus (getStoredCalib st) = ddsBus st /\
  levels (getStoredCalib st) = levels st.
Proof.
  unfold getStoredCalib.
  destruct (ratio_ok (EEPROM_get EE_ADDRESS (eeprom st))); cbn; repeat split; reflexivity.
Qed.

Lemma setup_scale btns sched ee rest st' :
  setup btns sched (power_on ee) = Some (rest, st') ->
  scaleFactor st' =
    (if ratio_ok (EEPROM_get EE_ADDRESS (eeprom st'))
     then fdiv (EEPROM_get EE_ADDRESS (eeprom st')) GATE_DUR
     else nominalScale).
Proof.
  unfold setup.
  generalize (Str "To calibrate, set calib jumper, then press arduino reset btn while holding either nudge btn pressed").
  intros msg.
  assert (Hs1 : forall f, scaleFactor
            (Serial_println msg (ddsSetFreq f (setupDds (setupPins (power_on ee)))))
          = nominalScale).
  { intros f. cbn [Serial_println scaleFactor].
    rewrite (proj1 (proj2 (ddsSetFreq_fields f _))).
    cbn [setupDds pulseHigh digitalWrite setupPins power_on scaleFactor]. reflexivity. }
  specialize (Hs1 F_MID).
  generalize dependent (Serial_println msg (ddsSetFreq F_MID (setupDds (setupPins (power_on ee))))).
  intros s1 Hs1 H.
  destruct (btns <? NO_BUTS_THRESH).
  - destruct (doCalib sched s1) as [(r, s2)|] eqn:E; [|discriminate H].
    injection H as <- <-. apply doCalib_scale in E.
    destruct (getStoredCalib_fields s2) as (A & B & _).
    rewrite A, B, E, Hs1. reflexivity.
  - injection H as <- <-.
    destruct (getStoredCalib_fields s1) as (A & B & _).
    rewrite A, B, Hs1. reflexivity.
Qed.

(** C4: the test after the last pass is [0.95 < calRatio < 1.05], both
    comparisons strict, so 0.95 and 1.05 themselves are refused and 0.951
    and 1.049 pass; when [doCalib] has taken its eighty readings, a ratio
    that passes is written to the EEPROM at [EE_ADDRESS]: the four cells
    from [EE_ADDRESS] on then hold the four bytes of its binary32 pattern,
    least significant first, every other cell is as before, and
    [EEPROM.get] at [EE_ADDRESS] gives the ratio back (when it is a
    well-formed binary32 value); [lockMode] and the lock LED are set. A
    ratio that fails leaves the EEPROM, [lockMode] and the lock LED as
    they were before the call. An accepted 1.049 is stored as the bytes
    162, 69, 134, 63 whatever the EEPROM held; a refused 1.05 changes no
    cell. *)
Theorem doCalib_validates_ratio :
  (forall st used rest cs g',
     gate_ok (hw st) -> List.length used = 80%nat ->
     readings used (hw st) = Some (cs, g') ->
     exists st',
       doCalib (used ++ rest) st = Some (rest, st') /\
       if ratio_ok (ratioOf (skipn 70 cs) (scaleFactor st)) then
         eeprom st' = EEPROM_put EE_ADDRESS (ratioOf (skipn 70 cs) (scaleFactor st)) (eeprom st)
         /\ cells EE_ADDRESS (eeprom st') = bytesOf (ratioOf (skipn 70 cs) (scaleFactor st))
         /\ (forall a, a < EE_ADDRESS \/ EE_ADDRESS + 4 <= a -> eeprom st' a = eeprom st a)
         /\ (valid_binary prec emax (ratioOf (skipn 70 cs) (scaleFactor st)) = true ->
             EEPROM_get EE_ADDRESS (eeprom st') = ratioOf (skipn 70 cs) (scaleFactor st))
         /\ lockMode st' = true /\ levels st' pinLockLed = true
       else
         eeprom st' = eeprom st /\ lockMode st' = lockMode st
         /\ levels st' pinLockLed = levels st pinLockLed) /\
  (forall r, ratio_ok r = flt (literal 95 100) r && flt r (literal 105 100)) /\
  (forall r st,
     eeprom (storeCalib r st) =
       (if ratio_ok r then EEPROM_put EE_ADDRESS r (eeprom st) else eeprom st) /\
     lockMode (storeCalib r st) = (if ratio_ok r then true else lockMode st)) /\
  ratio_ok (literal 95 100) = false /\ ratio_ok (literal 105 100) = false /\
  ratio_ok (literal 951 1000) = true /\ ratio_ok (literal 1049 1000) = true /\
  (forall r st,
     ratio_ok r = true ->
     cells EE_ADDRESS (eeprom (storeCalib r st)) = bytesOf r /\
     (forall a, a < EE_ADDRESS \/ EE_ADDRESS + 4 <= a ->
                eeprom (storeCalib r st) a = eeprom st a) /\
     (valid_binary prec emax r = true ->
      EEPROM_get EE_ADDRESS (eeprom (storeCalib r st)) = r)) /\
  (forall st,
     cells EE_ADDRESS (eeprom (storeCalib (literal 1049 1000) st)) = [162; 69; 134; 63] /\
     EEPROM_get EE_ADDRESS (eeprom (storeCalib (literal 1049 1000) st))
       = S754_finite false 8799650 (-23) /\
     lockMode (storeCalib (literal 1049 1000) st) = true) /\
  (forall st,
     eeprom (storeCalib (literal 105 100) st) = eeprom st /\
     lockMode (storeCalib (literal 105 100) st) = lockMode st).
Proof.
  split; [|split; [reflexivity|split;
    [|split; [vm_compute; reflexivity|split; [vm_compute; reflexivity|
      split; [vm_compute; reflexivity|split; [vm_compute; reflexivity|
        split; [|split]]]]]]]].
  - intros st used rest cs g' Hok Hlen Hr.
    destruct (doCalib_spec used rest cs g' st Hok Hlen Hr)
      as (sm & Hd & _ & _ & _ & _ & Hl & _ & He & Hled & _).
    eexists. split; [exact Hd|].
    destruct (storeCalib_fields (ratioOf (skipn 70 cs) (scaleFactor st)) sm)
      as (_ & _ & _ & _ & _ & A & B & C).
    rewrite A, B, C, He, Hl, Hled.
    destruct (ratio_ok _).
    + split; [reflexivity|]. split; [apply EEPROM_put_cells|].
      split; [intros a Ha; apply EEPROM_put_elsewhere; exact Ha|].
      split; [intros Hv; apply EEPROM_roundtrip; exact Hv|].
      split; reflexivity.
    + repeat split; reflexivity.
  - intros r st.
    destruct (storeCalib_fields r st) as (_ & _ & _ & _ & _ & A & B & _).
    split; assumption.
  - intros r st Hr.
    destruct (storeCalib_fields r st) as (_ & _ & _ & _ & _ & A & _).
    rewrite A, Hr.
    split; [apply EEPROM_put_cells|].
    split; [intros a Ha; apply EEPROM_put_elsewhere; exact Ha|].
    intros Hv. apply EEPROM_roundtrip. exact Hv.
  - intros st.
    destruct (storeCalib_fields (literal 1049 1000) st) as (_ & _ & _ & _ & _ & A & B & _).
    rewrite A, B. generalize (eeprom st) (lockMode st). intros ee l.
    vm_compute. split; [reflexivity|split; reflexivity].
  - intros st.
    destruct (storeCalib_fields (literal 105 100) st) as (_ & _ & _ & _ & _ & A & B & _).
    rewrite A, B. generalize (eeprom st) (lockMode st). intros ee l.
    vm_compute. split; reflexivity.
Qed.

(** C5, as stated, fails: the code multiplies the sum of the ten readings
    by the scale factor and divides the product by ten; in binary32 that
    is not the average times the scale factor. A calibration from reset
    with three edges in every gate prints 15999998 * 2^-19 as the first
    measured frequency where the average times the scale factor is
    15999999 * 2^-19; ten readings of 500000 give 5086263.0 and ratio
    8658654 * 2^-23 in the code against 5086262.5 and 8658655 * 2^-23. *)
Lemma average_times_scale_differs :
  match doCalib (repeat (gateOf 3) 80) (power_on blank) with
  | Some (_, st') => firstn 7 (serial st')
  | None => []
  end
  = Println (Str "Calibrating...")
    :: report F_MID (S754_finite false 15999998 (-19)) (S754_finite false 11010049 (-6)) /\
  averageTimesScale (repeat 3 10) (scaleFactor (power_on blank))
    = S754_finite false 15999999 (-19) /\
  measured (repeat 500000 10) nominalScale = S754_finite false 10172526 (-1) /\
  averageTimesScale (repeat 500000 10) nominalScale = S754_finite false 10172525 (-1) /\
  ratioOf (repeat 500000 10) nominalScale = S754_finite false 8658654 (-23) /\
  fdiv (of_int F_MID) (averageTimesScale (repeat 500000 10) nominalScale)
    = S754_finite false 8658655 (-23).
Proof.
  split; [vm_compute; reflexivity|].
  split; [vm_compute; reflexivity|].
  split; [vm_compute; reflexivity|].
  split; [vm_compute; reflexivity|].
  split; vm_compute; reflexivity.
Qed.

(** C5, amended: given the hardware activity of eighty readings, [doCalib]
    takes exactly those eighty and no more; it prints eight reports, the
    k-th from the k-th ten readings alone: the measured frequency
    (sum of the ten * scaleFactor) / 10, the product taken first and then
    divided, and the ratio F_MID / measured, always with the scale factor
    of entry, which it leaves unchanged; the ratio it then tests is the
    one of the last ten readings. *)
Theorem doCalib_measurement (st : vfo) (used rest : list irq_windows)
  (cs : list Z) (g' : gate) :
  gate_ok (hw st) ->
  List.length used = 80%nat ->
  readings used (hw st) = Some (cs, g') ->
  exists st',
    doCalib (used ++ rest) st = Some (rest, st') /\
    List.length cs = 80%nat /\
    hw st' = g' /\
    scaleFactor st' = scaleFactor st /\
    serial st' =
      serial st ++ [Println (Str "Calibrating...")]
      ++ reports 8 cs (fDDS st) (scaleFactor st)
      ++ verdict (ratioOf (skipn 70 cs) (scaleFactor st)) /\
    (forall ten scale,
       measured ten scale = fdiv (fmul (of_int (sum ten)) scale) (of_int 10) /\
       ratioOf ten scale = fdiv (of_int F_MID) (measured ten scale)).
Proof.
  intros Hok Hlen Hr.
  destruct (doCalib_spec used rest cs g' st Hok Hlen Hr)
    as (sm & Hd & Hh & Hsc & _ & _ & _ & _ & _ & _ & _ & Hser).
  destruct (readings_ok used _ cs g' Hok Hr) as (_ & Hl & _).
  eexists. split; [exact Hd|]. split; [congruence|].
  destruct (storeCalib_fields (ratioOf (skipn 70 cs) (scaleFactor st)) sm)
    as (A & B & _ & _ & E & _).
  rewrite A, B, E, Hser, <- !app_assoc.
  repeat split; auto.
Qed.

(** C6: [getStoredCalib] reads the ratio stored at [EE_ADDRESS]; when it
    lies strictly between 0.95 and 1.05 the scale factor becomes
    ratio / GATE_DUR, otherwise it stays as it was, which at start-up is
    the nominal 1.0 / GATE_DUR; a stored 1.0 read back gives exactly
    1.0 / GATE_DUR, the uncalibrated value. What is read is what the four
    cells from [EE_ADDRESS] on hold: any well-formed ratio written there
    by [EEPROM.put] is the one tested and divided; the bytes
    52, 51, 115, 63 (the first binary32 value above 0.95) give the scale
    factor 10133333 * 2^-20 and the bytes 101, 102, 134, 63 (the last one
    below 1.05) give 11199998 * 2^-20, whatever the scale factor was; the
    bytes of 0.95 and of 1.05 themselves, and an erased EEPROM, leave it
    alone; the bytes 0, 0, 128, 63 of 1.0 give the nominal
    10666666 * 2^-20. *)
Theorem getStoredCalib_scale :
  (forall st,
     scaleFactor (getStoredCalib st) =
       (if flt (literal 95 100) (EEPROM_get EE_ADDRESS (eeprom st))
           && flt (EEPROM_get EE_ADDRESS (eeprom st)) (literal 105 100)
        then fdiv (EEPROM_get EE_ADDRESS (eeprom st)) GATE_DUR
        else scaleFactor st)) /\
  (forall btns sched ee rest st',
     setup btns sched (power_on ee) = Some (rest, st') ->
     scaleFactor st' =
       (if ratio_ok (EEPROM_get EE_ADDRESS (eeprom st'))
        then fdiv (EEPROM_get EE_ADDRESS (eeprom st')) GATE_DUR
        else fdiv (of_int 1) GATE_DUR)) /\
  (forall st ee,
     eeprom st = EEPROM_put EE_ADDRESS (of_int 1) ee ->
     EEPROM_get EE_ADDRESS (eeprom st) = of_int 1 /\
     scaleFactor (getStoredCalib st) = fdiv (of_int 1) GATE_DUR) /\
  scaleFactor (power_on blank) = fdiv (of_int 1) GATE_DUR /\
  (forall st ee r,
     valid_binary prec emax r = true ->
     eeprom st = EEPROM_put EE_ADDRESS r ee ->
     cells EE_ADDRESS (eeprom st) = bytesOf r /\
     EEPROM_get EE_ADDRESS (eeprom st) = r /\
     scaleFactor (getStoredCalib st) =
       (if ratio_ok r then fdiv r GATE_DUR else scaleFactor st)) /\
  (forall st,
     cells EE_ADDRESS (eeprom st) = [52; 51; 115; 63] ->
     EEPROM_get EE_ADDRESS (eeprom st) = S754_finite false 15938356 (-24) /\
     scaleFactor (getStoredCalib st) = S754_finite false 10133333 (-20)) /\
  (forall st,
     cells EE_ADDRESS (eeprom st) = [101; 102; 134; 63] ->
     EEPROM_get EE_ADDRESS (eeprom st) = S754_finite false 8808037 (-23) /\
     scaleFactor (getStoredCalib st) = S754_finite false 11199998 (-20)) /\
  (forall st,
     cells EE_ADDRESS (eeprom st) = [51; 51; 115; 63] \/
     cells EE_ADDRESS (eeprom st) = [102; 102; 134; 63] \/
     cells EE_ADDRESS (eeprom st) = [255; 255; 255; 255] ->
     scaleFactor (getStoredCalib st) = scaleFactor st) /\
  (forall st,
     cells EE_ADDRESS (eeprom st) = [0; 0; 128; 63] ->
     EEPROM_get EE_ADDRESS (eeprom st) = of_int 1 /\
     scaleFactor (getStoredCalib st) = S754_finite false 10666666 (-20)) /\
  nominalScale = S754_finite false 10666666 (-20).
Proof.
  assert (Hcells : forall st b0 b1 b2 b3 r,
            cells EE_ADDRESS (eeprom st) = [b0; b1; b2; b3] ->
            double_of_bits (wrap8 b0 + 256 * wrap8 b1 + 65536 * wrap8 b2
                            + 16777216 * wrap8 b3) = r ->
            EEPROM_get EE_ADDRESS (eeprom st) = r /\
            scaleFactor (getStoredCalib st) =
              (if ratio_ok r then fdiv r GATE_DUR else scaleFactor st)).
  { intros st b0 b1 b2 b3 r Hc Hd.
    assert (Hg : EEPROM_get EE_ADDRESS (eeprom st) = r)
      by (rewrite (EEPROM_get_cells _ _ _ _ _ _ Hc); exact Hd).
    split; [exact Hg|].
    destruct (getStoredCalib_fields st) as (H & _). rewrite H, Hg. reflexivity. }
  split; [|split; [|split; [|split; [reflexivity|split; [|split; [|split;
    [|split; [|split; [|vm_compute; reflexivity]]]]]]]]].
  - intros st. destruct (getStoredCalib_fields st) as (H & _). exact H.
  - intros btns sched ee rest st' H. exact (setup_scale btns sched ee rest st' H).
  - intros st ee He.
    assert (Hg : EEPROM_get EE_ADDRESS (eeprom st) = of_int 1).
    { rewrite He. vm_compute. reflexivity. }
    split; [exact Hg|].
    destruct (getStoredCalib_fields st) as (H & _). rewrite H, Hg.
    vm_compute. reflexivity.
  - intros st ee r Hv He.
    assert (Hg : EEPROM_get EE_ADDRESS (eeprom st) = r)
      by (rewrite He; apply EEPROM_roundtrip; exact Hv).
    split; [rewrite He; apply EEPROM_put_cells|].
    split; [exact Hg|].
    destruct (getStoredCalib_fields st) as (H & _). rewrite H, Hg. reflexivity.
  - intros st Hc.
    destruct (Hcells st _ _ _ _ (S754_finite false 15938356 (-24)) Hc) as (Hg & Hs);
      [vm_compute; reflexivity|].
    split; [exact Hg|]. rewrite Hs. generalize (scaleFactor st). intros d.
    vm_compute. reflexivity.
  - intros st Hc.
    destruct (Hcells st _ _ _ _ (S754_finite false 8808037 (-23)) Hc) as (Hg & Hs);
      [vm_compute; reflexivity|].
    split; [exact Hg|]. rewrite Hs. generalize (scaleFactor st). intros d.
    vm_compute. reflexivity.
  - intros st [Hc|[Hc|Hc]].
    + destruct (Hcells st _ _ _ _ (S754_finite false 15938355 (-24)) Hc) as (_ & Hs);
        [vm_compute; reflexivity|].
      rewrite Hs. generalize (scaleFactor st). intros d. vm_compute. reflexivity.
    + destruct (Hcells st _ _ _ _ (S754_finite false 8808038 (-23)) Hc) as (_ & Hs);
        [vm_compute; reflexivity|].
      rewrite Hs. generalize (scaleFactor st). intros d. vm_compute. reflexivity.
    + destruct (Hcells st _ _ _ _ S754_nan Hc) as (_ & Hs);
        [vm_compute; reflexivity|].
      rewrite Hs. generalize (scaleFactor st). intros d. vm_compute. reflexivity.
  - intros st Hc.
    destruct (Hcells st _ _ _ _ (S754_finite false 8388608 (-23)) Hc) as (Hg & Hs);
      [vm_compute; reflexivity|].
    split; [rewrite Hg; vm_compute; reflexivity|]. rewrite Hs.
    generalize (scaleFactor st). intros d. vm_compute. reflexivity.
Qed.

(** C8, as stated, fails: at the nominal scale factor 500000 counts
    resolve to 5086262.5 Hz, which is more than one part in a million
    away from 5,086,848 Hz. *)
Lemma resolve_500000_is_not_5086848 :
  resolve 500000 nominalScale = S754_finite false 10172525 (-1) /\
  Qlt (5086848 * (1 # 1000000))
      (Qabs (Q_of_double (resolve 500000 nominalScale) - 5086848)).
Proof. split; vm_compute; reflexivity. Qed.

(** C8, amended: at the nominal scale factor 500000 counts resolve to
    5086262.5 Hz, within one part in a million of
    500000 / 0.098304 = 5,086,263.02 Hz, and [fDDS] becomes 5086262. *)
Theorem resolve_500000_nominal :
  nominalScale = fdiv (of_int 1) (fmul (literal 16384 1000000) (of_int SEGS_PER_GATE)) /\
  Qle (Qabs (Q_of_double (resolve 500000 nominalScale)
             - 500000 / (98304 # 1000000)))
      ((500000 / (98304 # 1000000)) * (1 # 1000000)) /\
  Qle (Qabs (Q_of_double (resolve 500000 nominalScale) - 5086263))
      (5086263 * (1 # 1000000)) /\
  to_uint32 (resolve 500000 nominalScale) = 5086262.
Proof.
  split; [reflexivity|].
  split; [vm_compute; discriminate|].
  split; [vm_compute; discriminate|vm_compute; reflexivity].
Qed.

(** * The theorems at concrete inputs *)

Lemma getGatedCount_returns_capture_witness :
  exists v g' ovf cnt,
    getGatedCount (gateOf 3) (run [Edge] Gate.power_on) = Some (v, g') /\
    captured ([Edge] ++ during_wait (gateOf 3)) Gate.power_on None = Some (ovf, cnt) /\
    v = Z.lor (Z.shiftl ovf 16) cnt /\
    gate_ok g' /\ 0 < vGateSegCountdown g'.
Proof.
  apply (getGatedCount_returns_capture Gate.power_on [Edge] (gateOf 3)).
  - unfold gate_ok, Gate.power_on, SEGS_PER_GATE. cbn. lia.
  - vm_compute. reflexivity.
  - vm_compute. discriminate.
  - vm_compute. reflexivity.
Defined.


Lemma doCalib_validates_ratio_witness :
  (exists st',
     doCalib ((repeat (gateOf 0) 70 ++ repeat (gateOf (Z.to_nat 516096)) 10) ++ [])
             (power_on blank)
       = Some ([], st') /\
     cells EE_ADDRESS (eeprom st') = [1; 0; 128; 63] /\
     EEPROM_get EE_ADDRESS (eeprom st') = S754_finite false 8388609 (-23) /\
     lockMode st' = true /\ levels st' pinLockLed = true) /\
  (exists st',
     doCalib (repeat (gateOf 3) 80 ++ []) (power_on blank) = Some ([], st') /\
     eeprom st' = eeprom (power_on blank) /\ lockMode st' = lockMode (power_on blank) /\
     levels st' pinLockLed = levels (power_on blank) pinLockLed).
Proof.
  split.
  - destruct (proj1 doCalib_validates_ratio (power_on blank)
                (repeat (gateOf 0) 70 ++ repeat (gateOf (Z.to_nat 516096)) 10) []
                (repeat 0 70 ++ repeat 516096 10) (mkGate 0 6 0 7 57344))
      as (st' & Hd & Hif).
    + unfold gate_ok, power_on, Gate.power_on, SEGS_PER_GATE. cbn. lia.
    + vm_compute. reflexivity.
    + vm_compute. reflexivity.
    + exists st'. split; [exact Hd|].
      assert (E : ratio_ok (ratioOf (skipn 70 (repeat 0 70 ++ repeat 516096 10))
                                    (scaleFactor (power_on blank))) = true)
        by (vm_compute; reflexivity).
      rewrite E in Hif. destruct Hif as (_ & Hb & _ & Hg & Hl & Hled).
      split; [|split; [|split; assumption]].
      * revert Hb. generalize (cells EE_ADDRESS (eeprom st')). intros l.
        vm_compute. exact (fun H => H).
      * revert Hg. generalize (EEPROM_get EE_ADDRESS (eeprom st')). intros x.
        vm_compute. exact (fun H => H eq_refl).
  - destruct (proj1 doCalib_validates_ratio (power_on blank) (repeat (gateOf 3) 80) []
                (repeat 3 80) (mkGate 0 6 0 0 3))
      as (st' & Hd & Hif).
    + unfold gate_ok, power_on, Gate.power_on, SEGS_PER_GATE. cbn. lia.
    + reflexivity.
    + vm_compute. reflexivity.
    + exists st'. split; [exact Hd|].
      assert (E : ratio_ok (ratioOf (skipn 70 (repeat 3 80))
                                    (scaleFactor (power_on blank))) = false)
        by (vm_compute; reflexivity).
      rewrite E in Hif. exact Hif.
Defined.

Lemma doCalib_measurement_witness :
  exists st', doCalib (repeat (gateOf 3) 80 ++ []) (power_on blank) = Some ([], st').
Proof.
  destruct (doCalib_measurement (power_on blank) (repeat (gateOf 3) 80) []
              (repeat 3 80) (mkGate 0 6 0 0 3)) as (st' & H & _).
  - unfold gate_ok, power_on, Gate.power_on, SEGS_PER_GATE. cbn. lia.
  - reflexivity.
  - vm_compute. reflexivity.
  - exists st'. exact H.
Defined.

Lemma getStoredCalib_scale_witness :
  (cells EE_ADDRESS (eeprom (power_on (EEPROM_put EE_ADDRESS (literal 1049 1000) blank)))
     = [162; 69; 134; 63] /\
   EEPROM_get EE_ADDRESS (eeprom (power_on (EEPROM_put EE_ADDRESS (literal 1049 1000) blank)))
     = S754_finite false 8799650 (-23) /\
   scaleFactor (getStoredCalib (power_on (EEPROM_put EE_ADDRESS (literal 1049 1000) blank)))
     = S754_finite false 11189333 (-20)) /\
  (EEPROM_get EE_ADDRESS
     (eeprom (power_on (fun a => nth (Z.to_nat a) [52; 51; 115; 63] 255)))
     = S754_finite false 15938356 (-24) /\
   scaleFactor (getStoredCalib (power_on (fun a => nth (Z.to_nat a) [52; 51; 115; 63] 255)))
     = S754_finite false 10133333 (-20)).
Proof.
  split.
  - assert (Hv : valid_binary prec emax (literal 1049 1000) = true)
      by (vm_compute; reflexivity).
    generalize (proj1 (proj2 (proj2 (proj2 (proj2 getStoredCalib_scale))))
                  (power_on (EEPROM_put EE_ADDRESS (literal 1049 1000) blank)) blank
                  (literal 1049 1000) Hv eq_refl).
    vm_compute. exact (fun H => H).
  - apply (proj1 (proj2 (proj2 (proj2 (proj2 (proj2 getStoredCalib_scale)))))
             (power_on (fun a => nth (Z.to_nat a) [52; 51; 115; 63] 255))).
    vm_compute. reflexivity.
Defined.

Lemma loop_mode_table_witness :
  exists st',
    loop (mkCycle (gateOf 3) false 1023) (power_on blank) = Some st' /\
    trackMode st' = negb false /\
    if trackMode st' then
      if lockMode st' then fDDS st' = fDDS (power_on blank)
                           /\ ddsBus st' = ddsBus (power_on blank)
      else fDDS st' = to_uint32 (resolve 3 (scaleFactor (power_on blank))) /\
           ddsBus st' = ddsBus (ddsSetFreq (fDDS st') (power_on blank))
    else
      fDDS st' =
        match decode 1023 with
        | UpButton => wrap32 (fDDS (power_on blank) - 5)
        | DownButton => wrap32 (fDDS (power_on blank) + 5)
        | _ => fDDS (power_on blank)
        end.
Proof.
  apply (proj1 loop_mode_table (mkCycle (gateOf 3) false 1023) (power_on blank)
           3 (mkGate 0 6 0 0 3)).
  vm_compute. reflexivity.
Defined.

Lemma fDDS_not_clamped_witness :
  inBand (fDDS (presses 2 true 300 (set_fDDS 5549990 (power_on blank)))) = false /\
  fDDS (presses 2 true 300 (set_fDDS 5549990 (power_on blank)))
    = fDDS (set_fDDS 5549990 (power_on blank)) + 5 * Z.of_nat 2 /\
  fDDS (presses 2 true 600 (presses 2 true 300 (set_fDDS 5549990 (power_on blank))))
    = fDDS (set_fDDS 5549990 (power_on blank)).
Proof.
  apply (proj2 (proj2 (proj2 (proj2 (proj2 fDDS_not_clamped))))
           2%nat (set_fDDS 5549990 (power_on blank))).
  - reflexivity.
  - vm_compute. split; [discriminate|reflexivity].
Defined.

Lemma lock_edge_triggered_nudge_repeats_witness :
  lockMode (power_on blank) = lockMode (set_oldLockBtnPressed true (power_on blank)).
Proof.
  symmetry.
  apply (proj2 (proj2 lock_edge_triggered_nudge_repeats)
           [mkCycle (gateOf 3) false 0; mkCycle (gateOf 3) false 600; mkCycle (gateOf 3) false 0]
           (set_oldLockBtnPressed true (power_on blank))
           (match loops [mkCycle (gateOf 3) false 0; mkCycle (gateOf 3) false 600;
                         mkCycle (gateOf 3) false 0]
                        (set_oldLockBtnPressed true (power_on blank)) with
            | Some s => s | None => power_on blank end)).
  - vm_compute. reflexivity.
  - reflexivity.
  - repeat constructor; vm_compute; discriminate.
Defined.

(** * Further facts about the gated counter *)

Section GateMore.




(** X2: a call returns exactly when at least as many Timer2 overflows
    occur during its wait as the countdown holds at entry (none are
    needed when the countdown is already at or below zero); with fewer,
    it is still waiting, whatever the number of edges counted. *)
Theorem getGatedCount_returns_iff (w : irq_windows) (g : gate) :
  gate_ok g ->
  ((exists r, getGatedCount w g = Some r) <->
   vGateSegCountdown g <= segments (during_wait w)) /\
  (segments (during_wait w) < vGateSegCountdown g -> getGatedCount w g = None).
Proof.
  intros Hok.
  assert (Hearly : segments (during_wait w) < vGateSegCountdown g ->
                   getGatedCount w g = None).
  { intros Hlt. unfold getGatedCount.
    rewrite (spinWait_early _ _ Hok Hlt). reflexivity. }
  split; [|exact Hearly]. split.
  - intros (r & Hr).
    destruct (Z.lt_ge_cases (segments (during_wait w)) (vGateSegCountdown g)) as [Hlt|Hge];
      [|lia].
    rewrite (Hearly Hlt) in Hr. discriminate Hr.
  - intros Hle. unfold getGatedCount.
    rewrite (spinWait_total _ _ Hok Hle). eexists. reflexivity.
Qed.

Lemma getGatedCount_returns_iff_witness :
  ((exists r, getGatedCount (mkWin [T2Ovf; Edge; T2Ovf] [] []) Gate.power_on = Some r) <->
   vGateSegCountdown Gate.power_on <= segments (during_wait (mkWin [T2Ovf; Edge; T2Ovf] [] []))) /\
  (segments (during_wait (mkWin [T2Ovf; Edge; T2Ovf] [] [])) < vGateSegCountdown Gate.power_on ->
   getGatedCount (mkWin [T2Ovf; Edge; T2Ovf] [] []) Gate.power_on = None).
Proof.
  apply (getGatedCount_returns_iff (mkWin [T2Ovf; Edge; T2Ovf] [] []) Gate.power_on).
  unfold gate_ok, Gate.power_on, SEGS_PER_GATE. cbn. lia.
Defined.

(** X3: a call entered after the gate has completed (countdown at or
    below zero) returns without waiting the snapshot the handler took
    then; the edges that arrived since that capture stay in the counters
    and go into the next value. *)
Theorem getGatedCount_late_call (w : irq_windows) (g : gate) :
  gate_ok g ->
  vGateSegCountdown g <= 0 ->
  during_wait w = [] ->
  segments (after_rearm w ++ between_reads w) < SEGS_PER_GATE ->
  exists g',
    getGatedCount w g
      = Some (Z.lor (Z.shiftl (vCtr1OvrFlowsCopy g) 16) (vCtr1Copy g), g') /\
    raw g' = (raw g + edges (after_rearm w ++ between_reads w)) mod 16777216 /\
    vGateSegCountdown g'
      = SEGS_PER_GATE - segments (after_rearm w ++ between_reads w).
Proof.
  intros Hok Hcd Hdw Hwin.
  assert (Hw : spinWait (during_wait w) g = Some (run (during_wait w) g)).
  { apply spinWait_total; [exact Hok|]. rewrite Hdw. cbn. lia. }
  destruct (getGatedCount_after_wait w g Hok Hw Hwin) as (g' & Hret & _ & _ & Hcd' & Hraw).
  cbv zeta in *. rewrite Hdw in Hret, Hraw. cbn [run] in Hret, Hraw.
  exists g'. repeat split; assumption.
Qed.

Lemma getGatedCount_late_call_witness :
  exists g',
    getGatedCount (mkWin [] [Edge] [Edge]) (mkGate 7 (-2) 1 3 9)
      = Some (Z.lor (Z.shiftl (vCtr1OvrFlowsCopy (mkGate 7 (-2) 1 3 9)) 16)
                    (vCtr1Copy (mkGate 7 (-2) 1 3 9)), g') /\
    raw g' = (raw (mkGate 7 (-2) 1 3 9)
              + edges (after_rearm (mkWin [] [Edge] [Edge])
                       ++ between_reads (mkWin [] [Edge] [Edge]))) mod 16777216 /\
    vGateSegCountdown g'
      = SEGS_PER_GATE - segments (after_rearm (mkWin [] [Edge] [Edge])
                                  ++ between_reads (mkWin [] [Edge] [Edge])).
Proof.
  apply (getGatedCount_late_call (mkWin [] [Edge] [Edge]) (mkGate 7 (-2) 1 3 9)).
  - unfold gate_ok. cbn. lia.
  - cbn. lia.
  - reflexivity.
  - vm_compute. reflexivity.
Defined.

(** X4: whatever the interleaving of edges, overflows and calls, every
    value [getGatedCount] returns is below 2^24, and the counters and the
    countdown stay within the ranges of their machine types. *)
Theorem gated_counts_below_2_24 (sched : list irq_windows) (g : gate)
  (cs : list Z) (g' : gate) :
  gate_ok g ->
  readings sched g = Some (cs, g') ->
  Forall (fun c => 0 <= c < 16777216) cs /\
  List.length cs = List.length sched /\
  gate_ok g'.
Proof.
  intros Hok Hr.
  destruct (readings_ok sched g cs g' Hok Hr) as (A & B & C).
  split; [exact C|]. split; [exact B|exact A].
Qed.

Lemma gated_counts_below_2_24_witness :
  Forall (fun c => 0 <= c < 16777216) [2; 0] /\
  List.length [2; 0] = List.length [gateOf 2; mkWin [T2Ovf; T2Ovf; T2Ovf; T2Ovf; T2Ovf; T2Ovf; Edge] [] []] /\
  gate_ok (mkGate 1 6 0 0 0).
Proof.
  apply (gated_counts_below_2_24
           [gateOf 2; mkWin [T2Ovf; T2Ovf; T2Ovf; T2Ovf; T2Ovf; T2Ovf; Edge] [] []]
           Gate.power_on [2; 0] (mkGate 1 6 0 0 0)).
  - unfold gate_ok, Gate.power_on, SEGS_PER_GATE. cbn. lia.
  - vm_compute. reflexivity.
Defined.

End GateMore.

(** * Further facts about the synthesizer driver *)

Section DriverMore.

Lemma value_app a b : value (a ++ b) = value a + 2 ^ Z.of_nat (List.length a) * value b.
Proof.
  induction a as [|x a IH]; cbn [app value List.length].
  - change (2 ^ Z.of_nat 0) with 1. lia.
  - rewrite IH, Nat2Z.inj_succ, Z.pow_succ_r by lia. lia.
Qed.

Lemma bitlist_length n x : List.length (bitlist n x) = n.
Proof. revert x. induction n as [|n IH]; intros x; cbn; [reflexivity|]. rewrite IH. reflexivity. Qed.

Lemma bitlist_value n x : value (bitlist n x) = x mod 2 ^ Z.of_nat n.
Proof.
  revert x. induction n as [|n IH]; intros x; cbn [bitlist value].
  - change (2 ^ Z.of_nat 0) with 1. rewrite Z.mod_1_r. reflexivity.
  - rewrite IH, Nat2Z.inj_succ, Z.pow_succ_r by lia.
    pose proof (Z.pow_pos_nonneg 2 (Z.of_nat n) ltac:(lia) ltac:(lia)) as Hp.
    rewrite Z.rem_mul_r by lia.
    rewrite (Zmod_odd x). destruct (Z.odd x); cbn [Z.b2z]; lia.
Qed.

Lemma sampled_bits n : forall x d rest,
  exists d', sampled d false (bitsWrites n x ++ rest)
             = bitlist n x ++ sampled d' false rest.
Proof.
  induction n as [|n IH]; intros x d rest; cbn [bitsWrites bitlist app].
  - exists d. reflexivity.
  - unfold bitWrites. cbn [app sampled negb andb].
    destruct (IH (x / 2) (Z.odd x) rest) as (d' & ->).
    exists d'. reflexivity.
Qed.

Lemma sampled_byte b d rest :
  exists d', sampled d false (byteWrites b ++ rest)
             = bitlist 8 (b mod 256) ++ sampled d' false rest.
Proof. unfold byteWrites. apply sampled_bits. Qed.

Lemma to_uint32_range x : 0 <= to_uint32 x < 4294967296.
Proof.
  destruct x as [s|s| |s m e]; cbn [to_uint32]; try lia.
  apply wrap32_range.
Qed.

(** The bits a receiver reads from one frame spell the tuning word, then
    a zero byte. *)
Lemma frame_sampled tw d :
  0 <= tw < 4294967296 ->
  value (sampled d false (frame tw)) = tw /\
  List.length (sampled d false (frame tw)) = 40%nat.
Proof.
  intros Htw. unfold frame.
  destruct (sampled_byte tw d
              (byteWrites (tw / 256) ++ byteWrites (tw / 65536)
               ++ byteWrites (tw / 16777216) ++ byteWrites 0
               ++ [(pinDdsLoad, true); (pinDdsLoad, false)])) as (d1 & ->).
  destruct (sampled_byte (tw / 256) d1
              (byteWrites (tw / 65536) ++ byteWrites (tw / 16777216) ++ byteWrites 0
               ++ [(pinDdsLoad, true); (pinDdsLoad, false)])) as (d2 & ->).
  destruct (sampled_byte (tw / 65536) d2
              (byteWrites (tw / 16777216) ++ byteWrites 0
               ++ [(pinDdsLoad, true); (pinDdsLoad, false)])) as (d3 & ->).
  destruct (sampled_byte (tw / 16777216) d3
              (byteWrites 0 ++ [(pinDdsLoad, true); (pinDdsLoad, false)])) as (d4 & ->).
  destruct (sampled_byte 0 d4 [(pinDdsLoad, true); (pinDdsLoad, false)]) as (d5 & ->).
  cbn [sampled]. rewrite app_nil_r.
  split.
  - rewrite !value_app, !bitlist_length, !bitlist_value.
    change (2 ^ Z.of_nat 8) with 256. rewrite !Z.mod_mod by lia.
    change (0 mod 256) with 0.
    pose proof (four_bytes tw Htw). lia.
  - rewrite !length_app, !bitlist_length. reflexivity.
Qed.

(** X5: for a frequency inside the band, [ddsSetFreq] appends one frame
    to what the synthesizer has received: a receiver that samples the
    data pin at each rising edge of the clock reads exactly 40 bits,
    which spell, least significant bit first, the 32-bit tuning word
    followed by a zero control byte; the load pin is then pulsed once,
    and the reset pin is not touched. *)
Theorem ddsSetFreq_frame_reads_back (f : Z) (st : vfo) (d : bool) :
  F_MIN < f < F_MAX ->
  exists ws,
    ddsBus (ddsSetFreq f st) = ddsBus st ++ ws /\
    List.length (sampled d false ws) = 40%nat /\
    value (sampled d false ws) = tuningWordOf f /\
    filter (fun w => pin_eqb (fst w) pinDdsLoad) ws
      = [(pinDdsLoad, true); (pinDdsLoad, false)] /\
    filter (fun w => pin_eqb (fst w) pinDdsReset) ws = [] /\
    List.length ws = 122%nat.
Proof.
  intros Hin.
  destruct (ddsSetFreq_in f st Hin) as (_ & _ & Hb).
  exists (frame (tuningWordOf f)). split; [exact Hb|].
  pose proof (to_uint32_range
                (fdiv (fmul (of_int f) TWO_POW_32) (of_int 125000000))) as Hr.
  fold (tuningWordOf f) in Hr.
  destruct (frame_sampled (tuningWordOf f) d Hr) as (Hv & Hl).
  split; [exact Hl|]. split; [exact Hv|].
  generalize (tuningWordOf f). intros tw.
  unfold frame, byteWrites.
  repeat split;
    cbn [bitsWrites bitWrites app filter fst pin_eqb List.length]; reflexivity.
Qed.

Lemma ddsSetFreq_frame_reads_back_witness :
  exists ws,
    ddsBus (ddsSetFreq 5000000 (power_on blank)) = ddsBus (power_on blank) ++ ws /\
    List.length (sampled true false ws) = 40%nat /\
    value (sampled true false ws) = tuningWordOf 5000000 /\
    filter (fun w => pin_eqb (fst w) pinDdsLoad) ws
      = [(pinDdsLoad, true); (pinDdsLoad, false)] /\
    filter (fun w => pin_eqb (fst w) pinDdsReset) ws = [] /\
    List.length ws = 122%nat.
Proof.
  apply (ddsSetFreq_frame_reads_back 5000000 (power_on blank) true).
  vm_compute. split; reflexivity.
Defined.

End DriverMore.

(** * Further facts about the stored calibration *)

Section StorageMore.

(** X6: a well-formed binary32 value written with [EEPROM.put] is read
    back unchanged by [EEPROM.get] at the same address, NaN, zeros and
    infinities included; the four bytes written are bytes, and no other
    address is changed. *)
Theorem EEPROM_put_get_roundtrip (a : Z) (x : double) (ee : Z -> Z) :
  valid_binary prec emax x = true ->
  EEPROM_get a (EEPROM_put a x ee) = x /\
  (forall k, 0 <= k < 4 -> 0 <= EEPROM_put a x ee (a + k) < 256) /\
  (forall a', a' < a \/ a + 4 <= a' -> EEPROM_put a x ee a' = ee a').
Proof.
  intros Hv. split; [exact (EEPROM_roundtrip a x ee Hv)|]. split.
  - intros k Hk. unfold EEPROM_put.
    replace ((a <=? a + k) && (a + k <? a + 4)) with true
      by (symmetry; apply andb_true_iff; split; [apply Z.leb_le|apply Z.ltb_lt]; lia).
    apply Z.mod_pos_bound. lia.
  - intros a' Ha. unfold EEPROM_put.
    replace ((a <=? a') && (a' <? a + 4)) with false; [reflexivity|].
    symmetry. apply andb_false_iff.
    destruct Ha; [left; apply Z.leb_gt|right; apply Z.ltb_ge]; lia.
Qed.

Lemma EEPROM_put_get_roundtrip_witness :
  EEPROM_get 0 (EEPROM_put 0 (literal 1049 1000) blank) = literal 1049 1000 /\
  (forall k, 0 <= k < 4 -> 0 <= EEPROM_put 0 (literal 1049 1000) blank (0 + k) < 256) /\
  (forall a', a' < 0 \/ 0 + 4 <= a' -> EEPROM_put 0 (literal 1049 1000) blank a' = blank a').
Proof.
  apply (EEPROM_put_get_roundtrip 0 (literal 1049 1000) blank).
  vm_compute. reflexivity.
Defined.

End StorageMore.

(** * Further facts about calibration and start-up *)

Section CalibMore.

(** The state [setup] is in when it reads the buttons. *)
Lemma setup_prefix_fields msg f st :
  let s1 := Serial_println msg (ddsSetFreq f (setupDds (setupPins st))) in
  hw s1 = hw st /\ scaleFactor s1 = scaleFactor st /\ fDDS s1 = fDDS st /\
  trackMode s1 = trackMode st /\ lockMode s1 = lockMode st /\
  oldLockBtnPressed s1 = oldLockBtnPressed st /\ eeprom s1 = eeprom st /\
  levels s1 pinLockLed = lockMode st /\ levels s1 pinTrackingLed = trackMode st /\
  levels s1 LED_BUILTIN = levels st LED_BUILTIN /\
  ddsBus s1 =
    (ddsBus st ++ [(pinDdsReset, true); (pinDdsReset, false);
                   (pinDdsClock, true); (pinDdsClock, false);
                   (pinDdsLoad, true); (pinDdsLoad, false)])
    ++ (if inBand f then frame (tuningWordOf f) else []).
Proof.
  cbv zeta. cbn [Serial_println hw scaleFactor fDDS trackMode lockMode
                 oldLockBtnPressed eeprom levels ddsBus].
  destruct (ddsSetFreq_fields f (setupDds (setupPins st)))
    as (C1 & C2 & C3 & C4 & C5 & C6 & C7).
  rewrite C1, C2, C3, C4, C5, C6, C7.
  rewrite !ddsSetFreq_levels by reflexivity. rewrite ddsSetFreq_bus.
  cbn [setupDds pulseHigh setupPins digitalWrite hw scaleFactor fDDS trackMode
       lockMode oldLockBtnPressed eeprom levels ddsBus is_dds_pin pin_eqb].
  repeat split; try reflexivity.
  destruct (inBand f); rewrite <- ?app_assoc; cbn [app];
    rewrite ?app_nil_r; reflexivity.
Qed.

Lemma F_MID_inBand : inBand F_MID = true.
Proof. vm_compute. reflexivity. Qed.

(** With a zero sum the measured frequency is zero (or NaN) and the
    ratio infinite (or NaN): never accepted. *)
Lemma ratio_of_silence cs scale : sum cs = 0 -> ratio_ok (ratioOf cs scale) = false.
Proof.
  intros H. unfold ratioOf, measured. rewrite H.
  destruct scale as [s|s| |s m e]; try destruct s; vm_compute; reflexivity.
Qed.

(** X7: a start-up with a button held calibrates over eighty readings
    and then loads what it stored: when the ratio of the last ten
    readings passes the test (and is a well-formed binary32 value), the
    EEPROM holds it, the scale factor of this very session is
    ratio / GATE_DUR and the output is locked; when it fails the test,
    the EEPROM is as it was at reset, the output is not locked and the
    scale factor is the one the old EEPROM content gives. *)
Theorem setup_calibrates_then_loads (ee : Z -> Z) (btns : Z)
  (used rest : list irq_windows) (cs : list Z) (g' : gate) :
  btns < NO_BUTS_THRESH ->
  List.length used = 80%nat ->
  readings used Gate.power_on = Some (cs, g') ->
  valid_binary prec emax (ratioOf (skipn 70 cs) nominalScale) = true ->
  exists st',
    setup btns (used ++ rest) (power_on ee) = Some (rest, st') /\
    fDDS st' = F_MID /\ hw st' = g' /\
    if ratio_ok (ratioOf (skipn 70 cs) nominalScale) then
      EEPROM_get EE_ADDRESS (eeprom st') = ratioOf (skipn 70 cs) nominalScale /\
      scaleFactor st' = fdiv (ratioOf (skipn 70 cs) nominalScale) GATE_DUR /\
      lockMode st' = true
    else
      eeprom st' = ee /\ lockMode st' = false /\
      scaleFactor st' =
        (if ratio_ok (EEPROM_get EE_ADDRESS ee)
         then fdiv (EEPROM_get EE_ADDRESS ee) GATE_DUR else nominalScale).
Proof.
  intros Hb Hlen Hr Hv. unfold setup.
  generalize (Str "To calibrate, set calib jumper, then press arduino reset btn while holding either nudge btn pressed").
  intros msg.
  destruct (setup_prefix_fields msg F_MID (power_on ee))
    as (P1 & P2 & P3 & P4 & P5 & P6 & P7 & _).
  cbv zeta in *.
  generalize dependent (Serial_println msg (ddsSetFreq F_MID (setupDds (setupPins (power_on ee))))).
  intros s1 P1 P2 P3 P4 P5 P6 P7.
  cbn [power_on hw scaleFactor fDDS trackMode lockMode oldLockBtnPressed eeprom] in *.
  apply Z.ltb_lt in Hb. rewrite Hb.
  assert (Hok : gate_ok (hw s1)).
  { rewrite P1. unfold gate_ok, Gate.power_on, SEGS_PER_GATE. cbn. lia. }
  rewrite <- P1 in Hr.
  destruct (doCalib_spec used rest cs g' s1 Hok Hlen Hr)
    as (sm & Hd & D1 & D2 & D3 & _ & D5 & _ & D7 & _).
  rewrite Hd. rewrite P2 in *.
  set (r := ratioOf (skipn 70 cs) nominalScale) in *.
  eexists. split; [reflexivity|].
  destruct (getStoredCalib_fields (storeCalib r sm)) as (G1 & G2 & G3 & G4 & _ & G6 & _).
  destruct (storeCalib_fields r sm) as (S1 & S2 & S3 & _ & _ & S6 & S7 & _).
  rewrite G4, S3, D3, P3, G3, S2, D1, G1, G2, G6, S1, S6, S7, D2, D5, D7, P5, P7.
  split; [reflexivity|]. split; [reflexivity|].
  destruct (ratio_ok r) eqn:Er.
  - rewrite (EEPROM_roundtrip EE_ADDRESS r ee Hv), Er. repeat split; reflexivity.
  - repeat split; reflexivity.
Qed.

Lemma setup_calibrates_then_loads_witness :
  exists st',
    setup 600 (repeat (gateOf 3) 80 ++ []) (power_on blank) = Some ([], st') /\
    fDDS st' = F_MID /\ hw st' = mkGate 0 6 0 0 3 /\
    if ratio_ok (ratioOf (skipn 70 (repeat 3 80)) nominalScale) then
      EEPROM_get EE_ADDRESS (eeprom st') = ratioOf (skipn 70 (repeat 3 80)) nominalScale /\
      scaleFactor st' = fdiv (ratioOf (skipn 70 (repeat 3 80)) nominalScale) GATE_DUR /\
      lockMode st' = true
    else
      eeprom st' = blank /\ lockMode st' = false /\
      scaleFactor st' =
        (if ratio_ok (EEPROM_get EE_ADDRESS blank)
         then fdiv (EEPROM_get EE_ADDRESS blank) GATE_DUR else nominalScale).
Proof.
  apply (setup_calibrates_then_loads blank 600 (repeat (gateOf 3) 80) []
           (repeat 3 80) (mkGate 0 6 0 0 3)).
  - reflexivity.
  - reflexivity.
  - vm_compute. reflexivity.
  - vm_compute. reflexivity.
Defined.

(** X8: a calibration whose last ten readings are all zero (no signal at
    the input) divides by a zero frequency; the ratio is then infinite or
    NaN, it fails the test, and [doCalib] leaves the EEPROM, [lockMode]
    and the scale factor as they were and reports the bad value. *)
Theorem doCalib_without_signal_rejects (st : vfo) (used rest : list irq_windows)
  (cs : list Z) (g' : gate) :
  gate_ok (hw st) ->
  List.length used = 80%nat ->
  readings used (hw st) = Some (cs, g') ->
  sum (skipn 70 cs) = 0 ->
  exists st',
    doCalib (used ++ rest) st = Some (rest, st') /\
    eeprom st' = eeprom st /\ lockMode st' = lockMode st /\
    scaleFactor st' = scaleFactor st /\
    serial st' =
      serial st ++ [Println (Str "Calibrating...")]
      ++ reports 8 cs (fDDS st) (scaleFactor st)
      ++ [Print (Str "calRatio bad value.  Not writing to EEPROM.")].
Proof.
  intros Hok Hlen Hr Hz.
  destruct (doCalib_spec used rest cs g' st Hok Hlen Hr)
    as (sm & Hd & _ & D2 & _ & _ & D5 & _ & D7 & _ & _ & Hser).
  pose proof (ratio_of_silence (skipn 70 cs) (scaleFactor st) Hz) as Hbad.
  destruct (storeCalib_fields (ratioOf (skipn 70 cs) (scaleFactor st)) sm)
    as (S1 & _ & _ & _ & S5 & S6 & S7 & _).
  unfold verdict in S5. rewrite Hbad in S5, S6, S7.
  eexists. split; [exact Hd|].
  rewrite S6, S7, S1, S5, D7, D5, D2, Hser, <- !app_assoc.
  repeat split; reflexivity.
Qed.

Lemma doCalib_without_signal_rejects_witness :
  exists st',
    doCalib (repeat (gateOf 0) 80 ++ []) (power_on blank) = Some ([], st') /\
    eeprom st' = eeprom (power_on blank) /\ lockMode st' = lockMode (power_on blank) /\
    scaleFactor st' = scaleFactor (power_on blank) /\
    serial st' =
      serial (power_on blank) ++ [Println (Str "Calibrating...")]
      ++ reports 8 (repeat 0 80) (fDDS (power_on blank)) (scaleFactor (power_on blank))
      ++ [Print (Str "calRatio bad value.  Not writing to EEPROM.")].
Proof.
  apply (doCalib_without_signal_rejects (power_on blank) (repeat (gateOf 0) 80) []
           (repeat 0 80) (mkGate 0 6 0 0 0)).
  - unfold gate_ok, power_on, Gate.power_on, SEGS_PER_GATE. cbn. lia.
  - reflexivity.
  - vm_compute. reflexivity.
  - reflexivity.
Defined.

Lemma storeCalib_modes r st :
  trackMode (storeCalib r st) = trackMode st /\
  oldLockBtnPressed (storeCalib r st) = oldLockBtnPressed st.
Proof. unfold storeCalib. destruct (ratio_ok r); cbn; split; reflexivity. Qed.

(** X9: during a calibration the synthesizer is sent the frame of F_MID
    once, on entry, and nothing after it; [fDDS], the tracking flag and
    [oldLockBtnPressed] are not changed, and the gate hardware is left as
    the eightieth reading left it. *)
Theorem doCalib_drives_F_MID_once (st : vfo) (used rest : list irq_windows)
  (cs : list Z) (g' : gate) :
  gate_ok (hw st) ->
  List.length used = 80%nat ->
  readings used (hw st) = Some (cs, g') ->
  exists st',
    doCalib (used ++ rest) st = Some (rest, st') /\
    ddsBus st' = ddsBus st ++ frame (tuningWordOf F_MID) /\
    fDDS st' = fDDS st /\ trackMode st' = trackMode st /\
    oldLockBtnPressed st' = oldLockBtnPressed st /\
    hw st' = g'.
Proof.
  intros Hok Hlen Hr.
  destruct (doCalib_spec used rest cs g' st Hok Hlen Hr)
    as (sm & Hd & D1 & _ & D3 & D4 & _ & D6 & _ & _ & Hbus & _).
  eexists. split; [exact Hd|].
  generalize dependent (ratioOf (skipn 70 cs) (scaleFactor st)). intros r _.
  destruct (storeCalib_fields r sm) as (_ & S2 & S3 & S4 & _).
  destruct (storeCalib_modes r sm) as (M1 & M2).
  rewrite S4, S3, S2, M1, M2, Hbus, D3, D1, D4, D6.
  split; [reflexivity|]. split; [reflexivity|]. split; [reflexivity|].
  split; reflexivity.
Qed.

Lemma doCalib_drives_F_MID_once_witness :
  exists st',
    doCalib (repeat (gateOf 3) 80 ++ []) (power_on blank) = Some ([], st') /\
    ddsBus st' = ddsBus (power_on blank) ++ frame (tuningWordOf F_MID) /\
    fDDS st' = fDDS (power_on blank) /\ trackMode st' = trackMode (power_on blank) /\
    oldLockBtnPressed st' = oldLockBtnPressed (power_on blank) /\
    hw st' = mkGate 0 6 0 0 3.
Proof.
  apply (doCalib_drives_F_MID_once (power_on blank) (repeat (gateOf 3) 80) []
           (repeat 3 80) (mkGate 0 6 0 0 3)).
  - unfold gate_ok, power_on, Gate.power_on, SEGS_PER_GATE. cbn. lia.
  - reflexivity.
  - vm_compute. reflexivity.
Defined.

Lemma sign_bit_rejected b :
  0 <= b < 4294967296 -> 2147483648 <= b ->
  ratio_ok (double_of_bits b) = false.
Proof.
  intros Hb Hs.
  assert (Ht : Z.testbit b 31 = true).
  { rewrite Z.testbit_odd, Z.shiftr_div_pow2 by lia. change (2 ^ 31) with 2147483648.
    replace (b / 2147483648) with 1; [reflexivity|]. Z.div_mod_to_equations. lia. }
  unfold double_of_bits. cbv zeta. rewrite Ht.
  destruct (_ =? 0); [destruct (_ =? 0); vm_compute; reflexivity|].
  destruct (_ =? 255); [destruct (_ =? 0); vm_compute; reflexivity|].
  generalize (Z.to_pos (b mod 8388608 + 8388608)), ((b / 8388608) mod 256 - 150).
  intros m e. vm_compute. reflexivity.
Qed.

(** X10: when the byte at [EE_ADDRESS + 3] has its top bit set, as in an
    erased EEPROM where every byte is 255, the stored value is negative
    or NaN: [getStoredCalib] does not accept it, keeps the scale factor
    and reports that the unit is not calibrated. *)
Theorem getStoredCalib_rejects_sign_bit (st : vfo) :
  128 <= wrap8 (eeprom st (EE_ADDRESS + 3)) ->
  scaleFactor (getStoredCalib st) = scaleFactor st /\
  serial (getStoredCalib st) =
    serial st ++ [Print (Str "Unable to read calRatio from EEPROM.  Not calibrated yet.")].
Proof.
  intros Hb.
  assert (Hr : ratio_ok (EEPROM_get EE_ADDRESS (eeprom st)) = false).
  { unfold EEPROM_get. apply sign_bit_rejected.
    - unfold wrap8 in *.
      pose proof (Z.mod_pos_bound (eeprom st EE_ADDRESS) 256 ltac:(lia)).
      pose proof (Z.mod_pos_bound (eeprom st (EE_ADDRESS + 1)) 256 ltac:(lia)).
      pose proof (Z.mod_pos_bound (eeprom st (EE_ADDRESS + 2)) 256 ltac:(lia)).
      pose proof (Z.mod_pos_bound (eeprom st (EE_ADDRESS + 3)) 256 ltac:(lia)).
      lia.
    - unfold wrap8 in *.
      pose proof (Z.mod_pos_bound (eeprom st EE_ADDRESS) 256 ltac:(lia)).
      pose proof (Z.mod_pos_bound (eeprom st (EE_ADDRESS + 1)) 256 ltac:(lia)).
      pose proof (Z.mod_pos_bound (eeprom st (EE_ADDRESS + 2)) 256 ltac:(lia)).
      lia. }
  unfold getStoredCalib. rewrite Hr. cbn. split; reflexivity.
Qed.

Lemma getStoredCalib_rejects_sign_bit_witness :
  scaleFactor (getStoredCalib (power_on blank)) = scaleFactor (power_on blank) /\
  serial (getStoredCalib (power_on blank)) =
    serial (power_on blank)
    ++ [Print (Str "Unable to read calRatio from EEPROM.  Not calibrated yet.")].
Proof.
  apply (getStoredCalib_rejects_sign_bit (power_on blank)).
  vm_compute. discriminate.
Defined.

End CalibMore.

(** * Further facts about the main loop *)

Section LoopMore.

Lemma CheckCtrlPins_levels vfoDC valA st :
  let st' := CheckCtrlPins vfoDC valA st in
  levels st' pinTrackingLed = negb vfoDC /\
  levels st' LED_BUILTIN = levels st LED_BUILTIN /\
  levels st' pinLockLed =
    match decode valA with
    | LockButton =>
        if oldLockBtnPressed st then levels st pinLockLed else negb (lockMode st)
    | _ => levels st pinLockLed
    end.
Proof.
  unfold CheckCtrlPins, decode. cbv zeta.
  destruct (NO_BUTS_THRESH <? valA); [repeat split; reflexivity|].
  destruct (valA <? BTN_LOCK_THRESH).
  - cbn [set_trackMode digitalWrite oldLockBtnPressed].
    destruct (oldLockBtnPressed st) eqn:Eo; cbn; rewrite ?Eo; repeat split; reflexivity.
  - cbn [set_trackMode digitalWrite trackMode].
    destruct vfoDC; cbn [negb]; [|destruct (valA <? BTN_UP_THRESH); repeat split; reflexivity].
    destruct (valA <? BTN_UP_THRESH);
      rewrite !ddsSetFreq_levels by reflexivity; repeat split; reflexivity.
Qed.

Lemma loop_levels cy st st' :
  loop cy st = Some st' ->
  levels st' pinTrackingLed = negb (vfoDC cy) /\
  levels st' LED_BUILTIN = negb (levels st LED_BUILTIN) /\
  levels st' pinLockLed =
    match decode (valA cy) with
    | LockButton =>
        if oldLockBtnPressed st then levels st pinLockLed else negb (lockMode st)
    | _ => levels st pinLockLed
    end.
Proof.
  unfold loop. cbn [digitalWrite hw]. intros H.
  destruct (getGatedCount (irq cy) (hw st)) as [(c, g)|]; [|discriminate H].
  match type of H with context [CheckCtrlPins ?a ?b ?s] =>
    destruct (CheckCtrlPins_levels a b s) as (A1 & A2 & A3);
    set (s1 := CheckCtrlPins a b s) in *
  end.
  cbv zeta in *.
  cbn [set_hw digitalWrite digitalRead levels lockMode oldLockBtnPressed pin_eqb] in A1, A2, A3.
  destruct (trackMode s1 && negb (lockMode s1)); injection H as <-.
  - rewrite !ddsSetFreq_levels by reflexivity.
    cbn [set_fDDS levels]. repeat split; assumption.
  - repeat split; assumption.
Qed.

Lemma loop_inv cy st st' :
  loop cy st = Some st' ->
  exists c g, getGatedCount (irq cy) (hw st) = Some (c, g).
Proof. intros H. apply (proj1 (loop_returns cy st)). exists st'. exact H. Qed.

Lemma loop_keeps_leds cy st st' :
  loop cy st = Some st' ->
  levels st pinLockLed = lockMode st ->
  levels st' pinLockLed = lockMode st' /\ levels st' pinTrackingLed = trackMode st'.
Proof.
  intros H Hl.
  destruct (loop_levels cy st st' H) as (A1 & _ & A3).
  destruct (loop_inv cy st st' H) as (c & g & Hg).
  destruct (loop_fields cy st c g Hg) as (s2 & E & _ & _ & _ & B4 & B5 & _).
  rewrite H in E. injection E as <-.
  split; [|congruence].
  rewrite A3, B5, Hl. destruct (decode (valA cy)); reflexivity.
Qed.

Lemma loops_keep_leds cys : forall st st',
  loops cys st = Some st' ->
  levels st pinLockLed = lockMode st -> levels st pinTrackingLed = trackMode st ->
  levels st' pinLockLed = lockMode st' /\ levels st' pinTrackingLed = trackMode st'.
Proof.
  induction cys as [|cy cys IH]; intros st st' H Hl Ht; cbn [loops] in H.
  - injection H as <-. auto.
  - destruct (loop cy st) as [s1|] eqn:E; [|discriminate H].
    destruct (loop_keeps_leds cy st s1 E Hl) as (A & B).
    exact (IH s1 st' H A B).
Qed.

Lemma accumulate_leds n : forall sched acc st a rest st',
  accumulate n sched acc st = Some (a, rest, st') ->
  lockMode st' = lockMode st /\ trackMode st' = trackMode st /\
  levels st' pinTrackingLed = levels st pinTrackingLed /\
  levels st' pinLockLed =
    (if Nat.even n then levels st pinLockLed else negb (levels st pinLockLed)).
Proof.
  induction n as [|n IH]; intros sched acc st a rest st' H; cbn [accumulate] in H.
  - injection H as <- <- <-. auto.
  - destruct sched as [|w sched]; [discriminate H|].
    cbn [digitalWrite hw] in H.
    destruct (getGatedCount w (hw st)) as [(c, g)|]; [|discriminate H].
    apply IH in H. cbn [set_hw digitalRead lockMode trackMode levels pin_eqb] in H.
    destruct H as (A & B & C & D).
    rewrite Nat.even_succ, <- Nat.negb_even.
    repeat split; try assumption.
    rewrite D. destruct (Nat.even n); cbn; [reflexivity|apply negb_involutive].
Qed.

Lemma settle_leds n : forall sched r0 st r rest st',
  settle n sched r0 st = Some (r, rest, st') ->
  lockMode st' = lockMode st /\ trackMode st' = trackMode st /\
  levels st' pinTrackingLed = levels st pinTrackingLed /\
  levels st' pinLockLed = levels st pinLockLed.
Proof.
  induction n as [|n IH]; intros sched r0 st r rest st' H; cbn [settle] in H.
  - injection H as <- <- <-. auto.
  - change (Z.to_nat NUM_ACCUM_LOOPS) with 10%nat in H.
    destruct (accumulate 10 sched 0 st) as [((a, s1), st1)|] eqn:E; [|discriminate H].
    apply accumulate_leds in E. apply IH in H.
    cbn [Serial_report lockMode trackMode levels] in H.
    cbn [Nat.even] in E.
    destruct E as (E1 & E2 & E3 & E4), H as (H1 & H2 & H3 & H4).
    repeat split; congruence.
Qed.

Lemma doCalib_keeps_leds sched st rest st' :
  doCalib sched st = Some (rest, st') ->
  levels st pinLockLed = lockMode st -> levels st pinTrackingLed = trackMode st ->
  levels st' pinLockLed = lockMode st' /\ levels st' pinTrackingLed = trackMode st'.
Proof.
  unfold doCalib. intros H Hl Ht.
  destruct (ddsSetFreq_fields F_MID (Serial_println (Str "Calibrating...") st))
    as (_ & _ & _ & C4 & C5 & _).
  pose proof (ddsSetFreq_levels F_MID (Serial_println (Str "Calibrating...") st)
                pinLockLed eq_refl) as L1.
  pose proof (ddsSetFreq_levels F_MID (Serial_println (Str "Calibrating...") st)
                pinTrackingLed eq_refl) as L2.
  generalize dependent (ddsSetFreq F_MID (Serial_println (Str "Calibrating...") st)).
  intros s0 H C4 C5 L1 L2.
  cbn [Serial_println trackMode lockMode levels] in *.
  destruct (settle 8 sched (of_int 1) s0) as [((r, s1), sm)|] eqn:E; [|discriminate H].
  injection H as <- <-.
  apply settle_leds in E. destruct E as (E1 & E2 & E3 & E4).
  unfold storeCalib. destruct (ratio_ok r); cbn; split; congruence.
Qed.

(** X11: in every state the sketch reaches, after [setup] and after any
    number of passes of [loop], calibration included, the lock LED shows
    [lockMode] and the tracking LED shows [trackMode]; and every pass of
    [loop] changes the level of the built-in LED. *)
Theorem leds_show_modes :
  (forall ee btns sched cys st',
     sketch ee btns sched cys = Some st' ->
     levels st' pinLockLed = lockMode st' /\
     levels st' pinTrackingLed = trackMode st') /\
  (forall cy st st',
     loop cy st = Some st' ->
     levels st' LED_BUILTIN = negb (levels st LED_BUILTIN)).
Proof.
  split.
  - intros ee btns sched cys st'. unfold sketch, setup.
    generalize (Str "To calibrate, set calib jumper, then press arduino reset btn while holding either nudge btn pressed").
    intros msg.
    destruct (setup_prefix_fields msg F_MID (power_on ee))
      as (_ & _ & _ & P4 & P5 & _ & _ & P8 & P9 & _).
    cbv zeta in *.
    generalize dependent (Serial_println msg (ddsSetFreq F_MID (setupDds (setupPins (power_on ee))))).
    intros s1 P4 P5 P8 P9 H.
    assert (Hl : levels s1 pinLockLed = lockMode s1) by congruence.
    assert (Ht : levels s1 pinTrackingLed = trackMode s1) by congruence.
    destruct (btns <? NO_BUTS_THRESH).
    + destruct (doCalib sched s1) as [(rest, s2)|] eqn:E; [|discriminate H].
      destruct (doCalib_keeps_leds sched s1 rest s2 E Hl Ht) as (A & B).
      destruct (getStoredCalib_fields s2) as (_ & _ & _ & _ & G5 & G6 & _ & _ & G9).
      apply (loops_keep_leds cys _ st' H); rewrite G9; congruence.
    + destruct (getStoredCalib_fields s1) as (_ & _ & _ & _ & G5 & G6 & _ & _ & G9).
      apply (loops_keep_leds cys _ st' H); rewrite G9; congruence.
  - intros cy st st' H. apply (loop_levels cy st st' H).
Qed.

Lemma leds_show_modes_witness :
  levels (match sketch blank 1023 [] [mkCycle (gateOf 3) false 0] with
          | Some s => s | None => power_on blank end) pinLockLed
  = lockMode (match sketch blank 1023 [] [mkCycle (gateOf 3) false 0] with
              | Some s => s | None => power_on blank end) /\
  levels (match sketch blank 1023 [] [mkCycle (gateOf 3) false 0] with
          | Some s => s | None => power_on blank end) pinTrackingLed
  = trackMode (match sketch blank 1023 [] [mkCycle (gateOf 3) false 0] with
               | Some s => s | None => power_on blank end).
Proof.
  apply (proj1 leds_show_modes blank 1023 [] [mkCycle (gateOf 3) false 0]).
  vm_compute. reflexivity.
Defined.

Lemma loops_keep_calibration cys : forall st st',
  loops cys st = Some st' ->
  scaleFactor st' = scaleFactor st /\ eeprom st' = eeprom st.
Proof.
  induction cys as [|cy cys IH]; intros st st' H; cbn [loops] in H.
  - injection H as <-. auto.
  - destruct (loop cy st) as [s1|] eqn:E; [|discriminate H].
    destruct (loop_inv cy st s1 E) as (c & g & Hg).
    destruct (loop_fields cy st c g Hg) as (s2 & E2 & _ & B2 & B3 & _).
    rewrite E in E2. injection E2 as <-.
    destruct (IH s1 st' H) as (A & B). split; congruence.
Qed.

(** X12: [loop] never writes the scale factor or the EEPROM; so in a run
    started without a button held at reset the EEPROM is never written,
    and the scale factor is, for the whole run, the one [setup] derived
    from the EEPROM content: ratio / GATE_DUR when the stored ratio
    passes the test, 1.0 / GATE_DUR otherwise. *)
Theorem calibration_fixed_after_setup :
  (forall cys st st',
     loops cys st = Some st' ->
     scaleFactor st' = scaleFactor st /\ eeprom st' = eeprom st) /\
  (forall ee btns sched cys st',
     NO_BUTS_THRESH <= btns ->
     sketch ee btns sched cys = Some st' ->
     eeprom st' = ee /\
     scaleFactor st' =
       (if ratio_ok (EEPROM_get EE_ADDRESS ee)
        then fdiv (EEPROM_get EE_ADDRESS ee) GATE_DUR
        else fdiv (of_int 1) GATE_DUR)).
Proof.
  split; [exact loops_keep_calibration|].
  intros ee btns sched cys st' Hb. unfold sketch, setup.
  generalize (Str "To calibrate, set calib jumper, then press arduino reset btn while holding either nudge btn pressed").
  intros msg.
  destruct (setup_prefix_fields msg F_MID (power_on ee))
    as (_ & P2 & _ & _ & _ & _ & P7 & _).
  cbv zeta in *.
  generalize dependent (Serial_println msg (ddsSetFreq F_MID (setupDds (setupPins (power_on ee))))).
  intros s1 P2 P7 H. cbn [power_on scaleFactor eeprom] in *.
  replace (btns <? NO_BUTS_THRESH) with false in H by (symmetry; apply Z.ltb_ge; exact Hb).
  destruct (loops_keep_calibration cys _ st' H) as (A & B).
  destruct (getStoredCalib_fields s1) as (G1 & G2 & _).
  rewrite A, B, G1, G2, P2, P7. split; reflexivity.
Qed.

Lemma calibration_fixed_after_setup_witness :
  eeprom (match sketch blank 1023 [] [mkCycle (gateOf 3) false 0] with
          | Some s => s | None => power_on (fun _ => 0) end) = blank /\
  scaleFactor (match sketch blank 1023 [] [mkCycle (gateOf 3) false 0] with
               | Some s => s | None => power_on (fun _ => 0) end) =
    (if ratio_ok (EEPROM_get EE_ADDRESS blank)
     then fdiv (EEPROM_get EE_ADDRESS blank) GATE_DUR
     else fdiv (of_int 1) GATE_DUR).
Proof.
  apply (proj2 calibration_fixed_after_setup blank 1023 [] [mkCycle (gateOf 3) false 0]).
  - vm_compute. discriminate.
  - vm_compute. reflexivity.
Defined.

(** X13: a reset with no button held (a reading of NO_BUTS_THRESH or
    more) takes no reading of the counter and leaves [setup] with the
    synthesizer reset and set to F_MID, [fDDS] at F_MID, both modes off,
    the gate armed and the EEPROM untouched; the reading NO_BUTS_THRESH
    itself starts no calibration, although [CheckCtrlPins] takes the
    same reading for the 'up' button. *)
Theorem setup_without_button (ee : Z -> Z) (btns : Z) (sched : list irq_windows) :
  NO_BUTS_THRESH <= btns ->
  (exists st',
     setup btns sched (power_on ee) = Some (sched, st') /\
     fDDS st' = F_MID /\ trackMode st' = false /\ lockMode st' = false /\
     hw st' = Gate.power_on /\ eeprom st' = ee /\
     ddsBus st' =
       [(pinDdsReset, true); (pinDdsReset, false);
        (pinDdsClock, true); (pinDdsClock, false);
        (pinDdsLoad, true); (pinDdsLoad, false)]
       ++ frame (tuningWordOf F_MID)) /\
  (forall st, fDDS (CheckCtrlPins true NO_BUTS_THRESH st) = wrap32 (fDDS st - 5)).
Proof.
  intros Hb. split.
  - unfold setup.
    generalize (Str "To calibrate, set calib jumper, then press arduino reset btn while holding either nudge btn pressed").
    intros msg.
    destruct (setup_prefix_fields msg F_MID (power_on ee))
      as (P1 & _ & P3 & P4 & P5 & _ & P7 & _ & _ & _ & P11).
    cbv zeta in *. rewrite F_MID_inBand in P11.
    generalize dependent (Serial_println msg (ddsSetFreq F_MID (setupDds (setupPins (power_on ee))))).
    intros s1 P1 P3 P4 P5 P7 P11.
    cbn [power_on hw fDDS trackMode lockMode eeprom ddsBus app] in *.
    replace (btns <? NO_BUTS_THRESH) with false by (symmetry; apply Z.ltb_ge; exact Hb).
    eexists. split; [reflexivity|].
    destruct (getStoredCalib_fields s1) as (_ & G2 & G3 & G4 & G5 & G6 & _ & G8 & _).
    rewrite G2, G3, G4, G5, G6, G8, P1, P3, P4, P5, P7, P11.
    split; [reflexivity|]. split; [reflexivity|]. split; [reflexivity|].
    split; [reflexivity|]. split; reflexivity.
  - intros st.
    destruct (CheckCtrlPins_fields true NO_BUTS_THRESH st) as (_ & _ & _ & _ & _ & _ & A7 & _).
    exact A7.
Qed.

Lemma setup_without_button_witness :
  (exists st',
     setup 853 [gateOf 1] (power_on blank) = Some ([gateOf 1], st') /\
     fDDS st' = F_MID /\ trackMode st' = false /\ lockMode st' = false /\
     hw st' = Gate.power_on /\ eeprom st' = blank /\
     ddsBus st' =
       [(pinDdsReset, true); (pinDdsReset, false);
        (pinDdsClock, true); (pinDdsClock, false);
        (pinDdsLoad, true); (pinDdsLoad, false)]
       ++ frame (tuningWordOf F_MID)) /\
  (forall st, fDDS (CheckCtrlPins true NO_BUTS_THRESH st) = wrap32 (fDDS st - 5)).
Proof.
  apply (setup_without_button blank 853 [gateOf 1]).
  vm_compute. discriminate.
Defined.

(** X14: the two modes are separate.  With the radio's VFO on
    (Tracking), [CheckCtrlPins] never changes [fDDS] and never writes to
    the synthesizer, whatever the buttons read.  With it off (hold), the
    gated count has no effect: [fDDS] and what the synthesizer receives
    after the pass are those [CheckCtrlPins] alone produces. *)
Theorem modes_are_separate :
  (forall valA st,
     fDDS (CheckCtrlPins false valA st) = fDDS st /\
     ddsBus (CheckCtrlPins false valA st) = ddsBus st) /\
  (forall cy st c g,
     getGatedCount (irq cy) (hw st) = Some (c, g) ->
     vfoDC cy = true ->
     exists st',
       loop cy st = Some st' /\
       fDDS st' = fDDS (CheckCtrlPins true (valA cy) st) /\
       ddsBus st' = ddsBus (CheckCtrlPins true (valA cy) st)).
Proof.
  split.
  - intros valA st.
    destruct (CheckCtrlPins_fields false valA st) as (_ & _ & _ & _ & _ & _ & A7 & A8).
    cbv zeta in *. rewrite A7, A8. cbn [andb].
    destruct (decode valA); split; reflexivity.
  - intros cy st c g Hg Hv.
    destruct (loop_fields cy st c g Hg) as (st' & El & _ & _ & _ & _ & _ & _ & B7 & B8).
    destruct (CheckCtrlPins_fields true (valA cy) st) as (_ & _ & _ & _ & _ & _ & A7 & A8).
    cbv zeta in *. rewrite Hv in B7, B8. cbn [andb] in A8.
    exists st'. split; [exact El|].
    rewrite A8, A7, B8, B7. split; reflexivity.
Qed.

Lemma modes_are_separate_witness :
  exists st',
    loop (mkCycle (gateOf 3) true 300) (power_on blank) = Some st' /\
    fDDS st' = fDDS (CheckCtrlPins true 300 (power_on blank)) /\
    ddsBus st' = ddsBus (CheckCtrlPins true 300 (power_on blank)).
Proof.
  apply (proj2 modes_are_separate (mkCycle (gateOf 3) true 300) (power_on blank)
           3 (mkGate 0 6 0 0 3)).
  - vm_compute. reflexivity.
  - reflexivity.
Defined.

End LoopMore.
